(** * Order lifecycle of the Swissy backend: a shallow embedding

    The route handlers of [routes/orders.js], [routes/invoiceRoutes.js]
    and the invoice router variants kept in [unnamed/part_006] are
    translated into functions over an explicit database state.  Mongoose
    documents become records, collections become [gmap]s keyed by object
    id, and each handler is a computation in a small state-and-exception
    monad: an exception thrown inside the [try] block keeps the writes
    already performed and is turned into a 500 response by the handler's
    [catch], exactly as in the source. *)

From stdpp Require Import base gmap strings list pretty.

Open Scope string_scope.

(* ------------------------------------------------------------------ *)
(** ** Data model (models/User.js, unnamed/part_001, models/Notification.js) *)

(** Object ids are modelled as natural numbers; [x.toString() === y.toString()]
    becomes equality of the numbers. *)
Abbreviation ObjectId := nat.

Inductive Role := customer | employee | admin.

#[global] Instance Role_eq_dec : EqDecision Role.
Proof. solve_decision. Defined.

(** The fields of a user the lifecycle engine reads or writes. *)
Record User := mkUser {
  role : Role;
  assignedOrders : list ObjectId
}.

(** [$addToSet] and [$pull] on an array of ids. *)
Definition addToSet (x : ObjectId) (l : list ObjectId) : list ObjectId :=
  if decide (x ∈ l) then l else l ++ [x].

Definition pull (x : ObjectId) (l : list ObjectId) : list ObjectId :=
  filter (fun y => y <> x) l.

(** The authenticated actor [req.user]. *)
Record Actor := mkActor { actor_id : ObjectId; actor_role : Role }.

Record FileRef := mkFile {
  f_url : string; f_filename : string; f_size : Z; f_mimetype : string
}.

Record Item := mkItem { description : option string; quantity : Z; price : Z }.

Record SampleImage := mkSample {
  s_url : string; s_filename : string; s_type : string; s_comments : string
}.

Record PendingFile := mkPendingFile {
  p_url : string; p_filename : string; p_comments : string
}.

Record CustomSizes := mkCustomSizes { cs_length : Z; cs_width : Z; cs_unit : string }.

(** The order-type specific fields (vector, digitizing and patch sections
    of the schema); [length] and [unit] are primed, the plain names being
    taken in Rocq. *)
Record TypeFields := mkTypeFields {
  designName : option string;
  fileFormat : option string;
  otherInstructions : string;
  patchDesignName : option string;
  patchStyle : option string;
  patchAmount : option Z;
  patchUnit : option string;
  patchLength : option Z;
  patchWidth : option Z;
  patchBackingStyle : option string;
  patchQuantity : option Z;
  patchAddress : option string;
  PlacementofDesign : option string;
  CustomMeasurements : option string;
  length' : Z;
  width : Z;
  unit' : string;
  customSizes : CustomSizes
}.

(** [employeePendingWork]; [submittedAt] is a date and is left out. *)
Record PendingWork := mkPendingWork {
  hasPendingWork : bool;
  pendingStatus : string;
  pendingFiles : list PendingFile;
  pendingReport : string;
  submittedBy : option ObjectId;
  rejectionReason : string;
  wasRejected : bool
}.

Definition emptyPendingWork : PendingWork :=
  mkPendingWork false "" [] "" None "" false.

Record RevisionInfo := mkRevisionInfo {
  parentOrderId : option ObjectId;
  isRevision : bool;
  revisionNumber : nat;
  revisionReason : string
}.

Record InvoiceLink := mkInvoiceLink {
  invoiceId : option ObjectId;
  hasInvoice : bool;
  invoiceStatus : string
}.

Record Order := mkOrder {
  customerId : ObjectId;
  orderNumber : string;
  orderType : string;
  fields : TypeFields;
  trackingNumber : string;
  items : list Item;
  files : list FileRef;
  status : string;
  customerApprovalStatus : string;
  sampleImages : list SampleImage;
  revision : RevisionInfo;
  totalAmount : Z;
  notes : string;
  rejectedReason : string;
  assignedTo : option ObjectId;
  requiredEmployeeRole : string;
  report : string;
  employeePendingWork : PendingWork;
  invoiceLink : InvoiceLink
}.

(** Assignments [order.f = v] to single fields. *)
Definition set_status (v : string) (o : Order) : Order :=
  mkOrder (customerId o) (orderNumber o) (orderType o) (fields o) (trackingNumber o)
    (items o) (files o) v (customerApprovalStatus o) (sampleImages o) (revision o)
    (totalAmount o) (notes o) (rejectedReason o) (assignedTo o)
    (requiredEmployeeRole o) (report o) (employeePendingWork o) (invoiceLink o).

Definition set_rejectedReason (v : string) (o : Order) : Order :=
  mkOrder (customerId o) (orderNumber o) (orderType o) (fields o) (trackingNumber o)
    (items o) (files o) (status o) (customerApprovalStatus o) (sampleImages o) (revision o)
    (totalAmount o) (notes o) v (assignedTo o)
    (requiredEmployeeRole o) (report o) (employeePendingWork o) (invoiceLink o).

Definition set_report (v : string) (o : Order) : Order :=
  mkOrder (customerId o) (orderNumber o) (orderType o) (fields o) (trackingNumber o)
    (items o) (files o) (status o) (customerApprovalStatus o) (sampleImages o) (revision o)
    (totalAmount o) (notes o) (rejectedReason o) (assignedTo o)
    (requiredEmployeeRole o) v (employeePendingWork o) (invoiceLink o).

Definition set_trackingNumber (v : string) (o : Order) : Order :=
  mkOrder (customerId o) (orderNumber o) (orderType o) (fields o) v
    (items o) (files o) (status o) (customerApprovalStatus o) (sampleImages o) (revision o)
    (totalAmount o) (notes o) (rejectedReason o) (assignedTo o)
    (requiredEmployeeRole o) (report o) (employeePendingWork o) (invoiceLink o).

Definition set_notes (v : string) (o : Order) : Order :=
  mkOrder (customerId o) (orderNumber o) (orderType o) (fields o) (trackingNumber o)
    (items o) (files o) (status o) (customerApprovalStatus o) (sampleImages o) (revision o)
    (totalAmount o) v (rejectedReason o) (assignedTo o)
    (requiredEmployeeRole o) (report o) (employeePendingWork o) (invoiceLink o).

Definition set_assignedTo (v : option ObjectId) (o : Order) : Order :=
  mkOrder (customerId o) (orderNumber o) (orderType o) (fields o) (trackingNumber o)
    (items o) (files o) (status o) (customerApprovalStatus o) (sampleImages o) (revision o)
    (totalAmount o) (notes o) (rejectedReason o) v
    (requiredEmployeeRole o) (report o) (employeePendingWork o) (invoiceLink o).

Definition set_sampleImages (v : list SampleImage) (o : Order) : Order :=
  mkOrder (customerId o) (orderNumber o) (orderType o) (fields o) (trackingNumber o)
    (items o) (files o) (status o) (customerApprovalStatus o) v (revision o)
    (totalAmount o) (notes o) (rejectedReason o) (assignedTo o)
    (requiredEmployeeRole o) (report o) (employeePendingWork o) (invoiceLink o).

Definition set_employeePendingWork (v : PendingWork) (o : Order) : Order :=
  mkOrder (customerId o) (orderNumber o) (orderType o) (fields o) (trackingNumber o)
    (items o) (files o) (status o) (customerApprovalStatus o) (sampleImages o) (revision o)
    (totalAmount o) (notes o) (rejectedReason o) (assignedTo o)
    (requiredEmployeeRole o) (report o) v (invoiceLink o).

Definition set_invoiceLink (v : InvoiceLink) (o : Order) : Order :=
  mkOrder (customerId o) (orderNumber o) (orderType o) (fields o) (trackingNumber o)
    (items o) (files o) (status o) (customerApprovalStatus o) (sampleImages o) (revision o)
    (totalAmount o) (notes o) (rejectedReason o) (assignedTo o)
    (requiredEmployeeRole o) (report o) (employeePendingWork o) v.

(* ------------------------------------------------------------------ *)
(** ** Schema validation run by [save()] and [Model.create] *)

Definition orderTypes : list string := ["vector"; "digitizing"; "patches"].

Definition orderStatuses : list string :=
  ["In Progress"; "Waiting for Approval"; "Design Approved"; "In Revision";
   "Manufacturing"; "Revision Ready"; "Revision Approved"; "Completed";
   "Rejected"; "Cancelled"; "Superseded"].

Definition in_enum (s : string) (l : list string) : bool := bool_decide (s ∈ l).

(** [required] on a String path: [undefined] and [""] are refused. *)
Definition req_str (v : option string) : bool :=
  match v with Some s => negb (String.eqb s "") | None => false end.

(** [enum] on an optional String path: an absent value passes. *)
Definition enum_opt (v : option string) (l : list string) : bool :=
  match v with Some s => in_enum s l | None => true end.

(** [min] on an optional Number path. *)
Definition min_opt (v : option Z) (m : Z) : bool :=
  match v with Some n => bool_decide (m <= n)%Z | None => true end.

Definition req_num (v : option Z) : bool :=
  match v with Some _ => true | None => false end.

Definition validate_fields (t : string) (f : TypeFields) : bool :=
  let isVec := String.eqb t "vector" in
  let isDig := String.eqb t "digitizing" in
  let isPat := String.eqb t "patches" in
  (negb (isVec || isDig) || req_str (designName f)) &&
  (negb isVec || req_str (fileFormat f)) &&
  enum_opt (fileFormat f) ["AI"; "CDR"; "SVG"; "PDF"; "EPS"; "Other"] &&
  (negb isPat || req_str (patchDesignName f)) &&
  (negb isPat || req_str (patchStyle f)) &&
  enum_opt (patchStyle f)
    ["Embroidery Patches"; "Sublimation Patches"; "Leather Patches";
     "PVC / Silicon Patches"; "Woven Patches"; "Chenille Patches";
     "Keychains"; "TPU Patches"] &&
  (negb isPat || req_num (patchAmount f)) && min_opt (patchAmount f) 0 &&
  (negb isPat || req_str (patchUnit f)) &&
  enum_opt (patchUnit f) ["inches"; "centimeters"; "millimeters"] &&
  (negb isPat || req_num (patchLength f)) && min_opt (patchLength f) 0 &&
  (negb isPat || req_num (patchWidth f)) && min_opt (patchWidth f) 0 &&
  (negb isPat || req_str (patchBackingStyle f)) &&
  enum_opt (patchBackingStyle f) ["Iron On"; "Sewn On"; "Peel N Stick"; "Velcro M+F"] &&
  (negb isPat || req_num (patchQuantity f)) && min_opt (patchQuantity f) 1 &&
  (negb isPat || req_str (patchAddress f)) &&
  (negb isDig || req_str (PlacementofDesign f)) &&
  (negb isDig || req_str (CustomMeasurements f)) &&
  bool_decide (0 <= length' f)%Z && bool_decide (0 <= width f)%Z &&
  in_enum (unit' f) ["inches"; "cm"; "mm"] &&
  bool_decide (0 <= cs_length (customSizes f))%Z &&
  bool_decide (0 <= cs_width (customSizes f))%Z &&
  in_enum (cs_unit (customSizes f)) ["inches"; "cm"; "mm"].

Definition validate_item (i : Item) : bool :=
  req_str (description i) && bool_decide (0 <= quantity i)%Z &&
  bool_decide (0 <= price i)%Z.

Definition validate_order (o : Order) : bool :=
  in_enum (orderType o) orderTypes &&
  validate_fields (orderType o) (fields o) &&
  forallb validate_item (items o) &&
  in_enum (status o) orderStatuses &&
  in_enum (customerApprovalStatus o) ["pending"; "approved"; "revision_requested"] &&
  forallb (fun si => in_enum (s_type si) ["initial"; "revision"]) (sampleImages o) &&
  in_enum (requiredEmployeeRole o) orderTypes &&
  in_enum (invoiceStatus (invoiceLink o)) ["pending"; "paid"; "cancelled"].

(* ------------------------------------------------------------------ *)
(** ** Notifications and invoices *)

Record Notification := mkNotification {
  n_userId : ObjectId;
  n_orderId : option ObjectId;
  n_type : string;
  n_title : string;
  n_message : string
}.

Record PaymentDetails := mkPaymentDetails {
  transactionId : string; payerId : string; payerEmail : string
}.

(** An invoice.  [inv_orderId] is the single-order link of models/Invoice.js;
    [inv_orders] is the list of the consolidated variant. *)
Record Invoice := mkInvoice {
  inv_customerId : ObjectId;
  inv_orderId : option ObjectId;
  inv_orders : list ObjectId;
  paymentStatus : string;
  paymentDetails : option PaymentDetails
}.

(* ------------------------------------------------------------------ *)
(** ** Database state and the handler monad *)

(** The collections, plus the ids of the order documents whose next write
    the database rejects (a storage error: empty in normal operation). *)
Record DB := mkDB {
  orders : gmap ObjectId Order;
  users : gmap ObjectId User;
  notifications : list Notification;
  invoices : gmap ObjectId Invoice;
  failing_writes : list ObjectId
}.

Definition with_orders (m : gmap ObjectId Order) (s : DB) : DB :=
  mkDB m (users s) (notifications s) (invoices s) (failing_writes s).
Definition with_users (m : gmap ObjectId User) (s : DB) : DB :=
  mkDB (orders s) m (notifications s) (invoices s) (failing_writes s).
Definition with_notifications (l : list Notification) (s : DB) : DB :=
  mkDB (orders s) (users s) l (invoices s) (failing_writes s).
Definition with_invoices (m : gmap ObjectId Invoice) (s : DB) : DB :=
  mkDB (orders s) (users s) (notifications s) m (failing_writes s).

(** A computation either completes or throws; the state reached is kept
    in both cases (no transaction rolls anything back). *)
Inductive Outcome (A : Type) := Done (a : A) | Thrown.
Arguments Done {A} a.
Arguments Thrown {A}.

Definition M (A : Type) := DB -> Outcome A * DB.

Definition ret {A} (a : A) : M A := fun s => (Done a, s).
Definition bind {A B} (m : M A) (k : A -> M B) : M B :=
  fun s => match m s with
           | (Done a, s') => k a s'
           | (Thrown, s') => (Thrown, s')
           end.
Definition throw {A} : M A := fun s => (Thrown, s).

Notation "'let!' x ':=' m 'in' k" := (bind m (fun x => k))
  (at level 200, x name, m at level 200, k at level 200).
Notation "'do!' m 'in' k" := (bind m (fun _ => k))
  (at level 200, m at level 200, k at level 200).

(** What a handler sends back: the HTTP status and the relevant payload. *)
Inductive Body :=
  | B_message
  | B_order (o : Order)
  | B_pdf (o : Order)
  | B_assignedCount (n : nat)
  | B_invoice (id : ObjectId)
  | B_revision (id : ObjectId).

Record Response := mkResponse { code : nat; body : Body }.

Definition reply (c : nat) : M Response := ret (mkResponse c B_message).

(** The handler's [try { ... } catch { res.status(500) }]. *)
Definition handle (h : M Response) (s : DB) : Response * DB :=
  match h s with
  | (Done r, s') => (r, s')
  | (Thrown, s') => (mkResponse 500 B_message, s')
  end.

(* ------------------------------------------------------------------ *)
(** ** Mongoose operations *)

(** [Order.findById(id)]. *)
Definition findOrder (id : ObjectId) : M (option Order) :=
  fun s => (Done (orders s !! id), s).

(** [order.save()]: the schema is validated, then the document written; a
    validation error or a rejected write throws. *)
Definition saveOrder (id : ObjectId) (o : Order) : M unit :=
  fun s =>
    if decide (id ∈ failing_writes s) then (Thrown, s)
    else if validate_order o then (Done tt, with_orders (<[id:=o]> (orders s)) s)
    else (Thrown, s).

(** [Order.create(doc)]: validated and stored under a fresh id. *)
Definition createOrder (o : Order) : M ObjectId :=
  fun s =>
    let id := fresh (dom (orders s)) in
    if validate_order o then (Done id, with_orders (<[id:=o]> (orders s)) s)
    else (Thrown, s).

(** [Order.deleteOne()]. *)
Definition deleteOrder (id : ObjectId) : M unit :=
  fun s => (Done tt, with_orders (delete id (orders s)) s).

(** [Order.find({ _id: { $in: ids } })]. *)
Definition findOrdersIn (ids : list ObjectId) : M (list (ObjectId * Order)) :=
  fun s => (Done (filter (fun p => p.1 ∈ ids) (map_to_list (orders s))), s).

(** [Order.find({ parentOrderId: id })]. *)
Definition findRevisionsOf (id : ObjectId) : M (list (ObjectId * Order)) :=
  fun s => (Done (filter (fun p => parentOrderId (revision p.2) = Some id)
                         (map_to_list (orders s))), s).

(** [User.findById(id)]. *)
Definition findUser (id : ObjectId) : M (option User) :=
  fun s => (Done (users s !! id), s).

(** [User.find({ role })]. *)
Definition findUsersByRole (r : Role) : M (list (ObjectId * User)) :=
  fun s => (Done (filter (fun p => role p.2 = r) (map_to_list (users s))), s).

(** [User.findByIdAndUpdate(id, update)]: no validation; an unknown id
    updates nothing. *)
Definition upd_user (m : gmap ObjectId User) (id : ObjectId) (f : User -> User)
    : gmap ObjectId User :=
  match m !! id with
  | Some u => <[id:=f u]> m
  | None => m
  end.

Definition updateUser (id : ObjectId) (f : User -> User) : M unit :=
  fun s => (Done tt, with_users (upd_user (users s) id f) s).

Definition pullAssigned (oid : ObjectId) (u : User) : User :=
  mkUser (role u) (pull oid (assignedOrders u)).

Definition addAssigned (oid : ObjectId) (u : User) : User :=
  mkUser (role u) (addToSet oid (assignedOrders u)).

(** [Notification.create(doc)]. *)
Definition createNotification (n : Notification) : M unit :=
  fun s => (Done tt, with_notifications (notifications s ++ [n]) s).

(** JavaScript truthiness of an optional string field of [req.body]. *)
Definition truthy (v : option string) : bool :=
  match v with Some s => negb (String.eqb s "") | None => false end.

(** [v || d] on an optional string. *)
Definition js_or (v : option string) (d : string) : string :=
  match v with Some s => if String.eqb s "" then d else s | None => d end.

(* ------------------------------------------------------------------ *)
(** ** PUT /:id (routes/orders.js, "UPDATE ORDER") *)

Record PutBody := mkPutBody {
  b_status : option string;
  b_rejectedReason : option string;
  b_report : option string;
  b_trackingNumber : option string;
  b_notes : option string;
  (** present in a request but never read by the handler *)
  b_orderType : option string
}.

(** The four conditional assignments [if (status) order.status = status; ...]. *)
Definition put_assign_fields (b : PutBody) (order : Order) : Order :=
  let o1 := match b_status b with
            | Some st => if truthy (Some st) then set_status st order else order
            | None => order end in
  let o2 := match b_rejectedReason b with
            | Some r => if truthy (Some r) then set_rejectedReason r o1 else o1
            | None => o1 end in
  let o3 := match b_report b with
            | Some r => if truthy (Some r) then set_report r o2 else o2
            | None => o2 end in
  match b_trackingNumber b with
  | Some t => set_trackingNumber t o3
  | None => o3
  end.

(** [if (status && status !== previousStatus) Notification.create(...)]. *)
Definition put_notify_status (id : ObjectId) (b : PutBody) (previousStatus : string)
    (o4 : Order) : M unit :=
  match b_status b with
  | Some st =>
    if truthy (Some st) && negb (String.eqb st previousStatus) then
      createNotification
        (mkNotification (customerId o4) (Some id) "order_status_changed"
           ("Order " ++ orderNumber o4 ++ " Updated")
           ("Your order status has been updated to " ++ status o4 ++ "."))
    else ret tt
  | None => ret tt
  end.

(** The tracking-number block: a notification when a new tracking number
    is set on a patches order whose customer exists. *)
Definition put_notify_tracking (id : ObjectId) (b : PutBody)
    (previousTrackingNumber : string) (o4 : Order) : M unit :=
  match b_trackingNumber b with
  | Some t =>
    if truthy (Some t) && negb (String.eqb t previousTrackingNumber) &&
       String.eqb (orderType o4) "patches" then
      let! cu := findUser (customerId o4) in
      match cu with
      | Some _ =>
        createNotification
          (mkNotification (customerId o4) (Some id) "tracking_number_added"
             "Tracking Number Added"
             ("Your order " ++ orderNumber o4 ++
              " has been shipped! Tracking number: " ++ t))
      | None => ret tt
      end
    else ret tt
  | None => ret tt
  end.

Definition put_order (actor : Actor) (id : ObjectId) (b : PutBody) : M Response :=
  let! oo := findOrder id in
  match oo with
  | None => reply 404
  | Some order =>
    if bool_decide (actor_role actor = admin) ||
       (bool_decide (actor_role actor = employee) &&
        bool_decide (assignedTo order = Some (actor_id actor)))
    then
      let previousStatus := status order in
      let previousTrackingNumber := trackingNumber order in
      let o4 := put_assign_fields b order in
      do! saveOrder id o4 in
      do! put_notify_status id b previousStatus o4 in
      do! put_notify_tracking id b previousTrackingNumber o4 in
      ret (mkResponse 200 (B_order o4))
    else if decide (customerId order = actor_id actor) then
      let o' := match b_notes b with
                | Some n => if truthy (Some n) then set_notes n order else order
                | None => order end in
      do! saveOrder id o' in
      ret (mkResponse 200 (B_order o'))
    else reply 403
  end.

(* ------------------------------------------------------------------ *)
(** ** PATCH /assign/:id and PATCH /bulk-assign (routes/orders.js) *)

Definition assignedNotification (eid oid : ObjectId) (o : Order) : Notification :=
  mkNotification eid (Some oid) "order_assigned"
    ("Order Assigned: " ++ orderNumber o)
    ("You have been assigned order " ++ orderNumber o ++ ".").

(** [if (prev && prev !== employeeId) User.findByIdAndUpdate(prev, { $pull })]. *)
Definition pullFromPrevious (prev : option ObjectId) (eid oid : ObjectId) : M unit :=
  match prev with
  | Some p => if decide (p = eid) then ret tt else updateUser p (pullAssigned oid)
  | None => ret tt
  end.

Definition assign_order (actor : Actor) (id : ObjectId) (employeeId : option ObjectId)
    : M Response :=
  if decide (actor_role actor = admin) then
    match employeeId with
    | None => reply 400
    | Some eid =>
      let! emp := findUser eid in
      match emp with
      | Some e =>
        if decide (role e = employee) then
          let! oo := findOrder id in
          match oo with
          | None => reply 404
          | Some order =>
            let previousAssigned := assignedTo order in
            let o' := set_assignedTo (Some eid) order in
            do! saveOrder id o' in
            do! pullFromPrevious previousAssigned eid id in
            do! updateUser eid (addAssigned id) in
            do! createNotification (assignedNotification eid id o') in
            ret (mkResponse 200 (B_order o'))
          end
        else reply 400
      | None => reply 400
      end
    end
  else reply 403.

(** The body of [for (const o of orders) { ... }]; a throw leaves the loop
    and the handler. *)
Fixpoint bulk_loop (eid : ObjectId) (os : list (ObjectId * Order)) : M unit :=
  match os with
  | [] => ret tt
  | (oid, o) :: rest =>
    let prev := assignedTo o in
    do! pullFromPrevious prev eid oid in
    do! updateUser eid (addAssigned oid) in
    let o' := set_assignedTo (Some eid) o in
    do! saveOrder oid o' in
    do! createNotification (assignedNotification eid oid o') in
    bulk_loop eid rest
  end.

Definition bulk_assign (actor : Actor) (orderIds : list ObjectId)
    (employeeId : option ObjectId) : M Response :=
  if decide (actor_role actor = admin) then
    match orderIds with
    | [] => reply 400
    | _ =>
      match employeeId with
      | None => reply 400
      | Some eid =>
        let! emp := findUser eid in
        match emp with
        | Some e =>
          if decide (role e = employee) then
            let! os := findOrdersIn orderIds in
            match os with
            | [] => reply 404
            | _ =>
              do! bulk_loop eid os in
              ret (mkResponse 200 (B_assignedCount (List.length os)))
            end
          else reply 400
        | None => reply 400
        end
      end
    end
  else reply 403.

(* ------------------------------------------------------------------ *)
(** ** GET /:id/pdf and DELETE /:id (routes/orders.js) *)

(** The PDF rendering ([generateOrderPDF]) is an external collaborator; its
    result is the order it was given.  [actor] is [req.user], which the
    handler never reads. *)
Definition get_order_pdf (actor : Actor) (id : ObjectId) : M Response :=
  let! oo := findOrder id in
  match oo with
  | None => reply 404
  | Some order => ret (mkResponse 200 (B_pdf order))
  end.

(** Uploaded files are removed from disk (not modelled), the order is
    detached from its assignee, then deleted. *)
Definition delete_order (actor : Actor) (id : ObjectId) : M Response :=
  let! oo := findOrder id in
  match oo with
  | None => reply 404
  | Some order =>
    if negb (bool_decide (actor_role actor = admin)) &&
       negb (bool_decide (customerId order = actor_id actor))
    then reply 403
    else
      do! (match assignedTo order with
           | Some a => updateUser a (pullAssigned id)
           | None => ret tt
           end) in
      do! deleteOrder id in
      reply 200
  end.

(* ------------------------------------------------------------------ *)
(** ** Employee work review (routes/orders.js) *)

Record SubmitBody := mkSubmitBody {
  sb_pendingStatus : option string;
  sb_pendingFiles : option (list PendingFile);
  sb_pendingReport : option string;
  sb_comments : option string
}.

(** [for (const admin of admins) { Notification.create({ userId: admin._id, ... }) }]. *)
Fixpoint notify_each (admins : list (ObjectId * User)) (mk : ObjectId -> Notification)
    : M unit :=
  match admins with
  | [] => ret tt
  | (aid, _) :: rest => do! createNotification (mk aid) in notify_each rest mk
  end.

(** POST /:id/employee-submit *)
Definition employee_submit (actor : Actor) (id : ObjectId) (b : SubmitBody) : M Response :=
  if decide (actor_role actor = employee) then
    let! oo := findOrder id in
    match oo with
    | None => reply 404
    | Some order =>
      if decide (assignedTo order = Some (actor_id actor)) then
        let pw := mkPendingWork true
                    (js_or (sb_pendingStatus b) "Waiting for Approval")
                    (match sb_pendingFiles b with Some fs => fs | None => [] end)
                    (js_or (sb_pendingReport b) (js_or (sb_comments b) ""))
                    (Some (actor_id actor)) "" false in
        let o' := set_employeePendingWork pw order in
        do! saveOrder id o' in
        let! admins := findUsersByRole admin in
        do! notify_each admins (fun aid =>
              mkNotification aid (Some id) "employee_work_pending"
                "Employee Work Pending Approval"
                ("submitted work for order " ++ orderNumber o' ++ ". Please review.")) in
        ret (mkResponse 200 (B_order o'))
      else reply 403
    end
  else reply 403.

(** [pending.pendingFiles.forEach(file => order.sampleImages.push({...}))]. *)
Definition pendingToSample (report : string) (f : PendingFile) : SampleImage :=
  mkSample (p_url f) (p_filename f) "initial"
    (js_or (Some (p_comments f)) (js_or (Some report) "")).

(** POST /:id/admin-approve-work *)
Definition admin_approve_work (actor : Actor) (id : ObjectId) : M Response :=
  if decide (actor_role actor = admin) then
    let! oo := findOrder id in
    match oo with
    | None => reply 404
    | Some order =>
      let pending := employeePendingWork order in
      if hasPendingWork pending then
        let o1 := set_sampleImages
                    (sampleImages order ++ map (pendingToSample (pendingReport pending))
                                               (pendingFiles pending)) order in
        let o2 := if truthy (Some (pendingStatus pending))
                  then set_status (pendingStatus pending) o1 else o1 in
        let o3 := if truthy (Some (pendingReport pending))
                  then set_report (pendingReport pending) o2 else o2 in
        let o4 := set_employeePendingWork emptyPendingWork o3 in
        do! saveOrder id o4 in
        do! createNotification
              (mkNotification (customerId o4) (Some id) "sample_uploaded" "Sample Uploaded"
                 ("A sample has been uploaded for order " ++ orderNumber o4 ++
                  ". Approve or Request Revision.")) in
        (* [pending] is the live nested path [order.employeePendingWork],
           not a copy: after the reset above, [pending.submittedBy] reads
           the new value, null. *)
        do! (match submittedBy (employeePendingWork o4) with
             | Some e =>
               createNotification
                 (mkNotification e (Some id) "work_approved" "Work Approved"
                    ("Your work for order " ++ orderNumber o4 ++
                     " has been approved by admin."))
             | None => ret tt
             end) in
        ret (mkResponse 200 (B_order o4))
      else reply 400
    end
  else reply 403.

(** The message of the [work_rejected] notification. *)
Definition rejectedMessage (orderNo reason : string) : string :=
  "Your work for order " ++ orderNo ++ " was rejected. Reason: " ++ reason.

(** POST /:id/admin-reject-work *)
Definition admin_reject_work (actor : Actor) (id : ObjectId)
    (rejectionReason_body : option string) : M Response :=
  if decide (actor_role actor = admin) then
    let! oo := findOrder id in
    match oo with
    | None => reply 404
    | Some order =>
      let p := employeePendingWork order in
      if hasPendingWork p then
        let reason := js_or rejectionReason_body "Work needs revision" in
        let pw := mkPendingWork false (pendingStatus p) (pendingFiles p) (pendingReport p)
                    (submittedBy p) reason true in
        let o' := set_employeePendingWork pw order in
        do! saveOrder id o' in
        do! (match submittedBy p with
             | Some e =>
               createNotification
                 (mkNotification e (Some id) "work_rejected" "Work Rejected"
                    (rejectedMessage (orderNumber o') reason))
             | None => ret tt
             end) in
        ret (mkResponse 200 (B_order o'))
      else reply 400
    end
  else reply 403.

(* ------------------------------------------------------------------ *)
(** ** POST /:id/create-revision (routes/orders.js) *)

(** The [orderNumber] default of the schema: a type prefix, then the time
    stamp and random suffix (supplied by the environment as [stamp]). *)
Definition orderNumberFor (orderType_ stamp : string) : string :=
  let prefix := if String.eqb orderType_ "vector" then "VEC"
                else if String.eqb orderType_ "digitizing" then "DIG"
                else if String.eqb orderType_ "patches" then "PAT"
                else "ORD" in
  prefix ++ "-" ++ stamp.

(** The "Copy order-type-specific fields" block of [revisionOrderData]. *)
Definition copyTypeFields (p : TypeFields) : TypeFields :=
  {| designName := designName p;
     fileFormat := fileFormat p;
     otherInstructions := otherInstructions p;
     patchDesignName := patchDesignName p;
     patchStyle := patchStyle p;
     patchAmount := patchAmount p;
     patchUnit := patchUnit p;
     patchLength := patchLength p;
     patchWidth := patchWidth p;
     patchBackingStyle := patchBackingStyle p;
     patchQuantity := patchQuantity p;
     patchAddress := patchAddress p;
     PlacementofDesign := PlacementofDesign p;
     CustomMeasurements := CustomMeasurements p;
     length' := length' p;
     width := width p;
     unit' := unit' p;
     customSizes := customSizes p |}.

(** [revisionOrderData], with the schema defaults for the fields it leaves
    out. *)
Definition revisionOrderData (parentId : ObjectId) (parent : Order)
    (nextRevisionNumber : nat) (comments : option string) (stamp : string) : Order :=
  {| customerId := customerId parent;
     orderNumber := orderNumberFor (orderType parent) stamp;
     orderType := orderType parent;
     fields := copyTypeFields (fields parent);
     trackingNumber := "";
     items := items parent;
     files := files parent;
     status := "In Progress";
     customerApprovalStatus := "pending";
     sampleImages := [];
     revision := mkRevisionInfo (Some parentId) true nextRevisionNumber
                   (js_or comments "Customer requested revision");
     totalAmount := 0;
     notes := "Revision " ++ pretty nextRevisionNumber ++ " of order " ++
              orderNumber parent ++ ". Reason: " ++ js_or comments "Not specified";
     rejectedReason := "";
     assignedTo := None;
     requiredEmployeeRole := orderType parent;
     report := "";
     employeePendingWork := emptyPendingWork;
     invoiceLink := mkInvoiceLink None false "pending" |}.

(** The handler.  [parentOrder.customerId] is populated, so a missing
    customer makes [parentOrder.customerId._id] throw; with no admin,
    [admins[0]._id] throws after the writes. *)
Definition create_revision (actor : Actor) (id : ObjectId) (comments : option string)
    (stamp : string) : M Response :=
  let! oo := findOrder id in
  match oo with
  | None => reply 404
  | Some parentOrder =>
    let! cu := findUser (customerId parentOrder) in
    match cu with
    | None => throw
    | Some _ =>
      if decide (customerId parentOrder = actor_id actor) then
        let! existingRevisions := findRevisionsOf id in
        let nextRevisionNumber := List.length existingRevisions + 1 in
        let! rid := createOrder (revisionOrderData id parentOrder nextRevisionNumber
                                   comments stamp) in
        do! saveOrder id (set_status "Superseded" parentOrder) in
        let! admins := findUsersByRole admin in
        do! (match admins with
             | [] => throw
             | (a, _) :: _ =>
               createNotification
                 (mkNotification a (Some rid) "revision_requested" "Revision Order Created"
                    ("created revision order for " ++ orderNumber parentOrder))
             end) in
        ret (mkResponse 201 (B_revision rid))
      else reply 403
    end
  end.

(* ------------------------------------------------------------------ *)
(** ** Invoices (routes/invoiceRoutes.js, unnamed/part_006) *)

(** What [paypalClient.execute(new OrdersGetRequest(transactionId))] reports
    about a transaction. *)
Record ProviderOrder := mkProviderOrder {
  po_id : string; po_status : string; po_payer_id : string; po_payer_email : string
}.

(** The payment provider is an external collaborator: a lookup by
    transaction id, [None] when the SDK call throws. *)
Abbreviation Provider := (string -> option ProviderOrder).

Definition findInvoice (id : ObjectId) : M (option Invoice) :=
  fun s => (Done (invoices s !! id), s).

Definition saveInvoice (id : ObjectId) (i : Invoice) : M unit :=
  fun s => (Done tt, with_invoices (<[id:=i]> (invoices s)) s).

Definition markPaid (i : Invoice) (d : PaymentDetails) : Invoice :=
  mkInvoice (inv_customerId i) (inv_orderId i) (inv_orders i) "paid" (Some d).

Definition set_invoiceStatus (v : string) (o : Order) : Order :=
  set_invoiceLink (mkInvoiceLink (invoiceId (invoiceLink o)) (hasInvoice (invoiceLink o)) v) o.

(** [if (invoice.orderId) { invoice.orderId.invoiceStatus = "paid"; save() }]
    on the populated order. *)
Definition markLinkedOrderPaid (i : Invoice) : M unit :=
  match inv_orderId i with
  | Some oid =>
    let! oo := findOrder oid in
    match oo with
    | Some o => saveOrder oid (set_invoiceStatus "paid" o)
    | None => ret tt
    end
  | None => ret tt
  end.

(** POST /pay/:invoiceId of routes/invoiceRoutes.js (behind
    [authorize("customer")]): the provider is queried for the transaction. *)
Definition pay_invoice (provider : Provider) (actor : Actor) (invoiceId_ : ObjectId)
    (transactionId_ : string) : M Response :=
  if decide (actor_role actor = customer) then
    let! io := findInvoice invoiceId_ in
    match io with
    | None => reply 404
    | Some invoice =>
      match provider transactionId_ with
      | None => throw
      | Some order =>
        if String.eqb (po_status order) "COMPLETED" then
          let inv' := markPaid invoice (mkPaymentDetails (po_id order) (po_payer_id order)
                                          (po_payer_email order)) in
          do! saveInvoice invoiceId_ inv' in
          do! markLinkedOrderPaid inv' in
          reply 200
        else reply 400
      end
    end
  else reply 403.

(** POST /pay/:invoiceId of the earlier router in unnamed/part_006 (lines
    97-127): the payment details come from the request body. *)
Definition pay_invoice_earlier (actor : Actor) (invoiceId_ : ObjectId)
    (transactionId_ payerId_ payerEmail_ : string) : M Response :=
  if decide (actor_role actor = customer) then
    let! io := findInvoice invoiceId_ in
    match io with
    | None => reply 404
    | Some invoice =>
      let inv' := markPaid invoice (mkPaymentDetails transactionId_ payerId_ payerEmail_) in
      do! saveInvoice invoiceId_ inv' in
      do! markLinkedOrderPaid inv' in
      reply 200
    end
  else reply 403.

(** [Invoice.create(doc)] against the schema of models/Invoice.js, the
    Invoice model both invoice routers require: [orderId] is a required
    path, so a document without it fails validation and throws; [orders]
    is not a path of that schema and is dropped on creation (strict mode).
    The validation of [items] is not modelled. *)
Definition createInvoice (i : Invoice) : M ObjectId :=
  fun s =>
    match inv_orderId i with
    | None => (Thrown, s)
    | Some _ =>
      let id := fresh (dom (invoices s)) in
      (Done id, with_invoices (<[id:=mkInvoice (inv_customerId i) (inv_orderId i) []
                                      (paymentStatus i) (paymentDetails i)]> (invoices s)) s)
    end.

(** The [Invoice.create] of the consolidated router: the document has the
    customer and [orders], the list of order ids, and no [orderId]. *)
Definition createConsolidatedInvoice (cid : ObjectId) (orderIds : list ObjectId)
    : M ObjectId :=
  createInvoice (mkInvoice cid None orderIds "unpaid" None).

(** [for (const order of orders) { order.invoiceId = ...; await order.save(); }] *)
Fixpoint link_orders (iid : ObjectId) (os : list (ObjectId * Order)) : M unit :=
  match os with
  | [] => ret tt
  | (oid, o) :: rest =>
    do! saveOrder oid (set_invoiceLink (mkInvoiceLink (Some iid) true "pending") o) in
    link_orders iid rest
  end.

(** POST /create of the consolidated router in unnamed/part_006 (lines
    330-396, behind [authorize("admin")]). *)
Definition create_invoice_consolidated (actor : Actor) (orderIds : list ObjectId)
    : M Response :=
  if decide (actor_role actor = admin) then
    match orderIds with
    | [] => reply 400
    | _ =>
      let! os := findOrdersIn orderIds in
      if negb (Nat.eqb (List.length os) (List.length orderIds)) then reply 404
      else
        match os with
        | [] => throw
        | (_, o0) :: _ =>
          let firstCustomerId := customerId o0 in
          if forallb (fun p => bool_decide (customerId p.2 = firstCustomerId)) os then
            let! cu := findUser firstCustomerId in
            match cu with
            | None => reply 404
            | Some _ =>
              let! iid := createConsolidatedInvoice firstCustomerId (map fst os) in
              do! link_orders iid os in
              ret (mkResponse 201 (B_invoice iid))
            end
          else reply 400
        end
    end
  else reply 403.

(* ------------------------------------------------------------------ *)
(** ** A small database for concrete runs *)

Definition tfVector : TypeFields :=
  mkTypeFields (Some "Logo") (Some "AI") "" None None None None None None None None None
    None None 0 0 "inches" (mkCustomSizes 0 0 "inches").

Definition tfPatches : TypeFields :=
  mkTypeFields None None "" (Some "Badge") (Some "Woven Patches") (Some 10%Z)
    (Some "inches") (Some 3%Z) (Some 3%Z) (Some "Iron On") (Some 50%Z)
    (Some "1 Main St") None None 0 0 "inches" (mkCustomSizes 0 0 "inches").

(** An order of customer [c] in its initial state. *)
Definition sampleOrder (c : ObjectId) (num t : string) (tf : TypeFields) : Order :=
  mkOrder c num t tf "" [mkItem (Some "Design") 1 20] [mkFile "u" "f.png" 10 "image/png"]
    "In Progress" "pending" [] (mkRevisionInfo None false 0 "") 0 "" "" None t ""
    emptyPendingWork (mkInvoiceLink None false "pending").

(** Order 10: a vector order of customer 1, assigned to employee 2. *)
Definition order10 : Order := set_assignedTo (Some 2) (sampleOrder 1 "VEC-1" "vector" tfVector).

(** Users: 1 and 5 customers, 2 and 3 employees, 4 admin; orders 10
    (vector, customer 1, assigned to 2), 11 (patches, customer 1) and 12
    (vector, customer 5). *)
Definition db0 : DB :=
  mkDB
    (<[10 := order10]>
     (<[11 := sampleOrder 1 "PAT-1" "patches" tfPatches]>
      (<[12 := sampleOrder 5 "VEC-2" "vector" tfVector]> ∅)))
    (<[1 := mkUser customer []]> (<[2 := mkUser employee [10]]>
     (<[3 := mkUser employee []]> (<[4 := mkUser admin []]>
      (<[5 := mkUser customer []]> ∅)))))
    [] ∅ [].

(** Order 10 after employee 2 has submitted work for it. *)
Definition order10_pending : Order :=
  set_employeePendingWork
    (mkPendingWork true "Waiting for Approval" [mkPendingFile "u2" "s.png" "first try"]
       "done" (Some 2) "" false) order10.

Definition db2 : DB := with_orders (<[10 := order10_pending]> (orders db0)) db0.

(** [db0] with an unpaid invoice 1 of customer 1, linked to order 11. *)
Definition db1 : DB := with_invoices (<[1 := mkInvoice 1 (Some 11) [] "unpaid" None]> ∅) db0.

(** A provider that knows one transaction, still in state CREATED. *)
Definition provider0 : Provider :=
  fun t => if String.eqb t "TX-1" then Some (mkProviderOrder "TX-1" "CREATED" "P1" "p@example.com")
           else None.

(** [db0] where the write of order 10 is rejected. *)
Definition db0_failing10 : DB :=
  mkDB (orders db0) (users db0) (notifications db0) (invoices db0) [10].

(* ------------------------------------------------------------------ *)
(** ** Vocabulary of the properties *)


(** The status [put_assign_fields] leaves on an order whose status was [prev]. *)
Definition put_status_value (b : PutBody) (prev : string) : string :=
  match b_status b with Some st => if truthy (Some st) then st else prev | None => prev end.


(** Every employee lists order [oid] in [assignedOrders] iff [o] is
    assigned to that employee. *)
Definition assignment_consistent (us : gmap ObjectId User) (oid : ObjectId) (o : Order) : Prop :=
  map_Forall (fun uid u => role u = employee ->
                           (oid ∈ assignedOrders u <-> assignedTo o = Some uid)) us.

(** The users after [pullFromPrevious prev eid oid] and [$addToSet] on [eid]. *)
Definition users_after_assign (us : gmap ObjectId User) (prev : option ObjectId)
    (eid oid : ObjectId) : gmap ObjectId User :=
  upd_user (match prev with
            | Some p => if decide (p = eid) then us else upd_user us p (pullAssigned oid)
            | None => us
            end) eid (addAssigned oid).






(** The result of [findOrdersIn ids] in [s]. *)
Definition found_orders (s : DB) (ids : list ObjectId) : list (ObjectId * Order) :=
  filter (fun p => p.1 ∈ ids) (map_to_list (orders s)).

(** [saveOrder] of this order succeeds when the failing writes are [fw]. *)
Definition save_ok (fw : list ObjectId) (q : ObjectId * Order) : Prop :=
  validate_order q.2 = true /\ q.1 ∉ fw.

(* ------------------------------------------------------------------ *)
(** ** Customer approval and revision requests (routes/orders.js) *)

Definition set_customerApprovalStatus (v : string) (o : Order) : Order :=
  mkOrder (customerId o) (orderNumber o) (orderType o) (fields o) (trackingNumber o)
    (items o) (files o) (status o) v (sampleImages o) (revision o)
    (totalAmount o) (notes o) (rejectedReason o) (assignedTo o)
    (requiredEmployeeRole o) (report o) (employeePendingWork o) (invoiceLink o).

(** PATCH /:id/approve.  The socket events sent to the admins and to the
    customer carry no state and are left out; the admins are still looked
    up. *)
Definition approve_order (actor : Actor) (id : ObjectId) : M Response :=
  let! oo := findOrder id in
  match oo with
  | None => reply 404
  | Some order =>
    if decide (customerId order = actor_id actor) then
      let o' := set_customerApprovalStatus "approved" order in
      do! saveOrder id o' in
      let! _ := findUsersByRole admin in
      ret (mkResponse 200 (B_order o'))
    else reply 403
  end.

(** The JavaScript string ['\n']. *)
Definition newline : string := String (Ascii.ascii_of_nat 10) EmptyString.

(** PATCH /:id/revision-request *)
Definition revision_request (actor : Actor) (id : ObjectId) (comments : option string)
    : M Response :=
  let! oo := findOrder id in
  match oo with
  | None => reply 404
  | Some order =>
    if decide (customerId order = actor_id actor) then
      let o1 := set_customerApprovalStatus "revision_requested" order in
      let o' := match comments with
                | Some c =>
                  if truthy (Some c)
                  then set_notes (js_or (Some (notes o1)) "" ++ newline ++
                                  "Revision Request: " ++ c) o1
                  else o1
                | None => o1
                end in
      do! saveOrder id o' in
      let! _ := findUsersByRole admin in
      ret (mkResponse 200 (B_order o'))
    else reply 403
  end.

(** PATCH /:id/revision-approve *)
Definition revision_approve (actor : Actor) (id : ObjectId) : M Response :=
  let! oo := findOrder id in
  match oo with
  | None => reply 404
  | Some order =>
    if decide (customerId order = actor_id actor) then
      let o' := set_customerApprovalStatus "approved" order in
      do! saveOrder id o' in
      let! _ := findUsersByRole admin in
      ret (mkResponse 200 (B_order o'))
    else reply 403
  end.

(* ------------------------------------------------------------------ *)
(** ** POST /:id/sample and POST /:id/revision (routes/orders.js) *)

(** An element of [req.body.files]. *)
Record UploadFile := mkUploadFile {
  uf_url : string; uf_filename : option string; uf_name : option string
}.

(** The request.  [ub_files] is [Some] when [req.body.files] is an array
    (an empty array included, being truthy) and [None] when it is absent
    or not an array; [req_file] is the [filename] of the multer upload
    [req.file], when there is one. *)
Record UploadBody := mkUploadBody {
  ub_files : option (list UploadFile);
  ub_cloudinaryUrl : option string;
  ub_filename : option string;
  ub_comments : option string
}.

(** The three branches that push to [order.sampleImages]; [None] is the
    final [else] (400).  [ty] is the image type and [dflt] the default
    file name of the route. *)
Definition upload_images (ty dflt : string) (b : UploadBody) (req_file : option string)
    : option (list SampleImage) :=
  let c := js_or (ub_comments b) "" in
  match ub_files b with
  | Some fs =>
    Some (map (fun f => mkSample (uf_url f) (js_or (uf_filename f) (js_or (uf_name f) dflt))
                          ty c) fs)
  | None =>
    match ub_cloudinaryUrl b with
    | Some u =>
      if truthy (Some u) then Some [mkSample u (js_or (ub_filename b) dflt) ty c]
      else match req_file with
           | Some fn => Some [mkSample ("/uploads/orders/" ++ fn) fn ty c]
           | None => None
           end
    | None =>
      match req_file with
      | Some fn => Some [mkSample ("/uploads/orders/" ++ fn) fn ty c]
      | None => None
      end
    end
  end.

Definition sampleNotification (id : ObjectId) (o : Order) : Notification :=
  mkNotification (customerId o) (Some id) "sample_uploaded" "Sample Uploaded"
    ("A sample has been uploaded for order " ++ orderNumber o ++
     ". Approve or Request Revision.").

Definition revisionNotification (id : ObjectId) (o : Order) : Notification :=
  mkNotification (customerId o) (Some id) "revision_uploaded" "Revision Uploaded"
    ("A revised sample has been uploaded for order " ++ orderNumber o ++
     ". Approve or Request further edits.").

(** POST /:id/sample *)
Definition upload_sample (actor : Actor) (id : ObjectId) (b : UploadBody)
    (req_file : option string) : M Response :=
  if decide (actor_role actor = admin) then
    let! oo := findOrder id in
    match oo with
    | None => reply 404
    | Some order =>
      match upload_images "initial" "sample.jpg" b req_file with
      | None => reply 400
      | Some imgs =>
        let o' := set_status "Waiting for Approval"
                    (set_sampleImages (sampleImages order ++ imgs) order) in
        do! saveOrder id o' in
        do! createNotification (sampleNotification id o') in
        ret (mkResponse 200 (B_order o'))
      end
    end
  else reply 403.

(** POST /:id/revision *)
Definition upload_revision (actor : Actor) (id : ObjectId) (b : UploadBody)
    (req_file : option string) : M Response :=
  if decide (actor_role actor = admin) then
    let! oo := findOrder id in
    match oo with
    | None => reply 404
    | Some order =>
      match upload_images "revision" "revision.jpg" b req_file with
      | None => reply 400
      | Some imgs =>
        let o' := set_status "Revision Ready"
                    (set_sampleImages (sampleImages order ++ imgs) order) in
        do! saveOrder id o' in
        do! createNotification (revisionNotification id o') in
        ret (mkResponse 200 (B_order o'))
      end
    end
  else reply 403.

(* ------------------------------------------------------------------ *)
(** ** Read-only routes: GET /stats, GET /, GET /assigned,
       GET /employee-analytics, GET /pending-employee-work *)

(** A read-only handler answers with a status and, on success, its data. *)
Definition handle_read {A} (h : M (nat * option A)) (s : DB) : nat * option A :=
  match h s with
  | (Done r, _) => r
  | (Thrown, _) => (500, None)
  end.

(** [Order.find(filter)] for a filter given as a predicate; the [sort] on
    [createdAt] and the [populate] of display fields are left out. *)
Definition findOrdersWhere (p : ObjectId * Order -> bool) : M (list (ObjectId * Order)) :=
  fun s => (Done (filter (fun q => p q = true) (map_to_list (orders s))), s).

(** [{ $group: { _id: key, count: { $sum: 1 } } }] reduced into the object
    [{ [_id]: count }]. *)
Definition group_count (key : Order -> string) (os : list Order) : gmap string nat :=
  foldr (fun o acc => <[key o := default 0 (acc !! key o) + 1]> acc) ∅ os.

(** [map[k] || 0]. *)
Definition count_of (m : gmap string nat) (k : string) : nat := default 0 (m !! k).

Record Stats := mkStats {
  st_pending : nat; st_inProgress : nat; st_completed : nat; st_rejected : nat;
  st_patches : nat; st_digitizing : nat; st_vector : nat; st_total : nat
}.

(** GET /stats.  [$count] yields no document on an empty collection, and
    [total] is then 0: the number of orders in both cases. *)
Definition order_stats (actor : Actor) : M (nat * option Stats) :=
  if negb (bool_decide (actor_role actor = admin)) &&
     negb (bool_decide (actor_role actor = employee))
  then ret (403, None)
  else
    let! all := findOrdersWhere (fun _ => true) in
    let os := all.*2 in
    let statusMap := group_count status os in
    let typeMap := group_count orderType os in
    let total := List.length os in
    ret (200, Some (mkStats (count_of statusMap "Pending") (count_of statusMap "In Progress")
                     (count_of statusMap "Completed") (count_of statusMap "Rejected")
                     (count_of typeMap "patches") (count_of typeMap "digitizing")
                     (count_of typeMap "vector") total)).

(** GET / *)
Definition list_orders (actor : Actor) : M (nat * option (list (ObjectId * Order))) :=
  let isAdmin := bool_decide (actor_role actor = admin) in
  let! os := findOrdersWhere (fun q => isAdmin || bool_decide (customerId q.2 = actor_id actor)) in
  ret (200, Some os).



(** GET /pending-employee-work *)
Definition pending_employee_work (actor : Actor)
    : M (nat * option (list (ObjectId * Order))) :=
  if negb (bool_decide (actor_role actor = admin)) then ret (403, None)
  else
    let! os := findOrdersWhere (fun q => hasPendingWork (employeePendingWork q.2)) in
    ret (200, Some os).

(** [.populate('assignedTo')]: the assignee's id, or [null] ([None]) when
    the order is unassigned or its assignee is no longer a user. *)
Definition populateAssigned (os : list (ObjectId * Order))
    : M (list (Order * option ObjectId)) :=
  fun s => (Done (map (fun q => (q.2, match assignedTo q.2 with
                                      | Some a => match users s !! a with
                                                  | Some _ => Some a
                                                  | None => None
                                                  end
                                      | None => None
                                      end)) os), s).

Record EmployeeStats := mkEmployeeStats {
  ea_employee : ObjectId; ea_totalAssigned : nat; ea_pending : nat;
  ea_inProgress : nat; ea_completed : nat; ea_rejected : nat
}.

Record Analytics := mkAnalytics {
  an_analytics : list EmployeeStats; unassignedCount : nat; totalOrders : nat
}.

(** The counters computed for one employee from the populated orders. *)
Definition employeeStats (pop : list (Order * option ObjectId)) (e : ObjectId)
    : EmployeeStats :=
  let assigned := filter (fun q => q.2 = Some e) pop in
  mkEmployeeStats e (List.length assigned)
    (List.length (filter (fun q => status q.1 = "Pending" \/ status q.1 = "In Progress") assigned))
    (List.length (filter (fun q => status q.1 = "In Progress") assigned))
    (List.length (filter (fun q => status q.1 = "Completed") assigned))
    (List.length (filter (fun q => status q.1 = "Rejected") assigned)).

(** GET /employee-analytics without [startDate] and [endDate] (the date
    filter reads [createdAt], which is not modelled).  The average
    completion time and the lists of completed orders are left out. *)
Definition employee_analytics (actor : Actor) : M (nat * option Analytics) :=
  if decide (actor_role actor = admin) then
    let! employees := findUsersByRole employee in
    let! allOrders := findOrdersWhere (fun _ => true) in
    let! pop := populateAssigned allOrders in
    let analytics := map (fun e => employeeStats pop e.1) employees in
    let unassignedOrders := filter (fun q => q.2 = None) pop in
    ret (200, Some (mkAnalytics analytics (List.length unassignedOrders)
                      (List.length allOrders)))
  else ret (403, None).

(* ------------------------------------------------------------------ *)
(** ** POST /public/pay/:invoiceId (routes/invoiceRoutes.js) *)

(** The same steps as [pay_invoice], with no authentication at all. *)
Definition public_pay_invoice (provider : Provider) (invoiceId_ : ObjectId)
    (transactionId_ : string) : M Response :=
  let! io := findInvoice invoiceId_ in
  match io with
  | None => reply 404
  | Some invoice =>
    match provider transactionId_ with
    | None => throw
    | Some order =>
      if String.eqb (po_status order) "COMPLETED" then
        let inv' := markPaid invoice (mkPaymentDetails (po_id order) (po_payer_id order)
                                        (po_payer_email order)) in
        do! saveInvoice invoiceId_ inv' in
        do! markLinkedOrderPaid inv' in
        reply 200
      else reply 400
    end
  end.

(* ------------------------------------------------------------------ *)
(** ** Pagination of GET / of the users router (routes/orders.js) *)

(** [Math.ceil(total / lim)] for [lim >= 1]. *)
Definition ceil_div (total lim : Z) : Z := (total + lim - 1) / lim.

(** The page of the (filtered, sorted) query result [xs] and the numbers
    sent back: [(users, page, pages, limit)].  [page] and [limit] are the
    integers [parseInt] reads from the query (defaults 1 and 20). *)
Definition users_page {A} (page limit : Z) (xs : list A) : list A * Z * Z * Z :=
  let pageNum := Z.max 1 page in
  let lim := Z.max 1 (Z.min 100 limit) in
  let total := Z.of_nat (List.length xs) in
  let pages := ceil_div total lim in
  (take (Z.to_nat lim) (drop (Z.to_nat ((pageNum - 1) * lim)) xs), pageNum,
   (if Z.eqb pages 0 then 1%Z else pages), lim).

(** The number of orders of [s] whose field [f] is [k]. *)
Definition count_by (f : Order -> string) (k : string) (s : DB) : nat :=
  List.length (filter (fun q => f q.2 = k) (map_to_list (orders s))).

(** The order is unassigned, or assigned to an id that is no user. *)
Definition no_assignee (us : gmap ObjectId User) (o : Order) : bool :=
  match assignedTo o with
  | None => true
  | Some a => match us !! a with Some _ => false | None => true end
  end.

(* ================================================================== *)
(** * Properties *)

Lemma validate_set_status o st :
  validate_order o = true -> validate_order (set_status st o) = in_enum st orderStatuses.
Proof.
  unfold validate_order. simpl. intros H.
  repeat rewrite andb_true_iff in H. destruct_and!.
  repeat match goal with Hx : _ = true |- _ => rewrite Hx; clear Hx end.
  simpl. rewrite ?andb_true_r. reflexivity.
Qed.

Lemma put_fields_status b o : status (put_assign_fields b o) = put_status_value b (status o).
Proof.
  destruct b as [[st|] [rr|] [rp|] [tn|] nt ot]; unfold put_assign_fields, put_status_value; simpl;
    repeat (case_match; simpl); reflexivity.
Qed.



Lemma with_notifications_nil (s : DB) : with_notifications (notifications s ++ [])%list s = s.
Proof. destruct s; unfold with_notifications; simpl; rewrite app_nil_r; reflexivity. Qed.




Lemma notify_each_effect (l : list (ObjectId * User)) (mk : ObjectId -> Notification) (s : DB) :
  notify_each l mk s =
    (Done tt, with_notifications (notifications s ++ map (fun p => mk p.1) l)%list s).
Proof.
  revert s. induction l as [|[a u] l IH]; intros s; simpl.
  - rewrite with_notifications_nil. reflexivity.
  - unfold bind, createNotification. rewrite IH. simpl.
    destruct s; unfold with_notifications; simpl. rewrite <- app_assoc. reflexivity.
Qed.

(** C2: when the assigned employee submits work on a schema-valid order
    whose write succeeds, the reply is 200 and the stored order carries the
    proposed status, files and report in [employeePendingWork] (with
    [hasPendingWork = true]), while its [status] and [sampleImages] are
    those it had before. *)
Lemma employee_submit_pending (actor : Actor) (id : ObjectId) (b : SubmitBody) (s : DB) (o : Order) :
  orders s !! id = Some o ->
  actor_role actor = employee -> assignedTo o = Some (actor_id actor) ->
  validate_order o = true -> id ∉ failing_writes s ->
  let (r, s') := handle (employee_submit actor id b) s in
  code r = 200 /\
  exists o', orders s' !! id = Some o' /\
    employeePendingWork o' =
      mkPendingWork true (js_or (sb_pendingStatus b) "Waiting for Approval")
        (match sb_pendingFiles b with Some fs => fs | None => [] end)
        (js_or (sb_pendingReport b) (js_or (sb_comments b) ""))
        (Some (actor_id actor)) "" false /\
    status o' = status o /\ sampleImages o' = sampleImages o.
Proof.
  intros Ho Hr Ha Hv Hf.
  unfold handle, employee_submit. rewrite decide_True by done.
  unfold bind, findOrder. simpl. rewrite Ho. rewrite decide_True by done.
  unfold saveOrder. rewrite decide_False by done.
  change (validate_order (set_employeePendingWork ?pw o)) with (validate_order o). rewrite Hv.
  unfold findUsersByRole. simpl. rewrite notify_each_effect. simpl.
  split; [reflexivity|].
  eexists. split; [apply lookup_insert_eq|]. simpl. auto.
Qed.

Lemma string_app_assoc (a b c : string) : ((a ++ b) ++ c) = (a ++ (b ++ c)).
Proof.
  induction a as [|x a IH]; [reflexivity|].
  change (String x ((a ++ b) ++ c) = String x (a ++ b ++ c)). rewrite IH. reflexivity.
Qed.

Lemma rejectedMessage_ends (orderNo reason : string) :
  exists pre, rejectedMessage orderNo reason = pre ++ reason.
Proof.
  exists ("Your work for order " ++ orderNo ++ " was rejected. Reason: ").
  unfold rejectedMessage. rewrite !string_app_assoc. reflexivity.
Qed.

(** C3: an admin's rejection of pending work (submitted by an employee
    other than the customer) replies 200, clears [hasPendingWork], keeps
    the pending files, status and report, records the reason and sets
    [wasRejected]; exactly one notification is added, of type
    [work_rejected], for the submitting employee and not the customer, and
    its message ends with the reason. *)
Lemma admin_reject_keeps_work (actor : Actor) (id : ObjectId) (reason : option string)
    (s : DB) (o : Order) (e : ObjectId) :
  orders s !! id = Some o ->
  actor_role actor = admin ->
  hasPendingWork (employeePendingWork o) = true ->
  submittedBy (employeePendingWork o) = Some e ->
  e <> customerId o ->
  validate_order o = true -> id ∉ failing_writes s ->
  let (r, s') := handle (admin_reject_work actor id reason) s in
  let p := employeePendingWork o in
  code r = 200 /\
  (exists o', orders s' !! id = Some o' /\
    hasPendingWork (employeePendingWork o') = false /\
    pendingFiles (employeePendingWork o') = pendingFiles p /\
    pendingStatus (employeePendingWork o') = pendingStatus p /\
    pendingReport (employeePendingWork o') = pendingReport p /\
    rejectionReason (employeePendingWork o') = js_or reason "Work needs revision" /\
    wasRejected (employeePendingWork o') = true) /\
  exists n, notifications s' = (notifications s ++ [n])%list /\
    n_type n = "work_rejected" /\ n_userId n = e /\ n_userId n <> customerId o /\
    exists pre, n_message n = pre ++ js_or reason "Work needs revision".
Proof.
  intros Ho Hr Hp He Hne Hv Hf.
  unfold handle, admin_reject_work. rewrite decide_True by done.
  unfold bind, findOrder. simpl. rewrite Ho, Hp.
  unfold saveOrder. rewrite decide_False by done.
  change (validate_order (set_employeePendingWork ?pw o)) with (validate_order o). rewrite Hv.
  rewrite He. simpl.
  split; [reflexivity|]. split.
  - eexists. split; [apply lookup_insert_eq|]. simpl. repeat split.
  - eexists. split; [reflexivity|]. simpl. repeat split; auto.
    apply rejectedMessage_ends.
Qed.

Lemma validate_revision (id : ObjectId) (p : Order) (n : nat) (c : option string) (stamp : string) :
  validate_order p = true -> validate_order (revisionOrderData id p n c stamp) = true.
Proof.
  unfold validate_order. intros H.
  repeat rewrite andb_true_iff in H. destruct_and!.
  change (in_enum (orderType p) orderTypes && validate_fields (orderType p) (fields p) &&
          forallb validate_item (items p) && in_enum "In Progress" orderStatuses &&
          in_enum "pending" ["pending"; "approved"; "revision_requested"] && true &&
          in_enum (orderType p) orderTypes &&
          in_enum "pending" ["pending"; "paid"; "cancelled"] = true).
  repeat match goal with Hx : _ = true |- _ => rewrite Hx; clear Hx end.
  reflexivity.
Qed.

Lemma copyTypeFields_id (f : TypeFields) : copyTypeFields f = f.
Proof. destruct f; reflexivity. Qed.

(** C4: when the owning customer creates a revision of a schema-valid
    order whose write succeeds, the parent's status becomes "Superseded"
    and a new order (under a fresh id) is stored with [parentOrderId] the
    parent, [isRevision = true], [revisionNumber] one more than the number
    of existing revisions of the parent, and the parent's type, type-specific
    fields, files and items. *)
Lemma create_revision_effect (actor : Actor) (id : ObjectId) (comments : option string)
    (stamp : string) (s : DB) (p : Order) (cu : User) :
  orders s !! id = Some p ->
  users s !! customerId p = Some cu ->
  customerId p = actor_id actor ->
  validate_order p = true -> id ∉ failing_writes s ->
  let s' := snd (handle (create_revision actor id comments stamp) s) in
  (exists p', orders s' !! id = Some p' /\ status p' = "Superseded") /\
  exists rid r, rid <> id /\ orders s !! rid = None /\ orders s' !! rid = Some r /\
    parentOrderId (revision r) = Some id /\ isRevision (revision r) = true /\
    revisionNumber (revision r) =
      List.length (filter (fun q => parentOrderId (revision q.2) = Some id)
                          (map_to_list (orders s))) + 1 /\
    orderType r = orderType p /\ fields r = fields p /\
    files r = files p /\ items r = items p.
Proof.
  intros Ho Hu Hc Hv Hf.
  assert (HvS : validate_order (set_status "Superseded" p) = true).
  { rewrite validate_set_status by done. reflexivity. }
  unfold handle, create_revision, bind, findOrder, findUser. simpl. rewrite Ho. simpl. rewrite Hu.
  rewrite decide_True by done.
  unfold findRevisionsOf, createOrder. simpl.
  rewrite validate_revision by done.
  set (rid := fresh (dom (orders s))).
  assert (Hrid : orders s !! rid = None).
  { apply not_elem_of_dom. apply is_fresh. }
  assert (Hne : rid <> id).
  { intros ->. congruence. }
  unfold saveOrder. simpl. rewrite decide_False by done. rewrite HvS.
  unfold findUsersByRole. simpl.
  match goal with
  | |- context [match ?l with [] => _ | _ :: _ => _ end] => destruct l as [|[a u] l']
  end; simpl.
  all: split; [eexists; split; [apply lookup_insert_eq|reflexivity]|].
  all: exists rid; eexists; split; [exact Hne|]; split; [exact Hrid|].
  all: split; [rewrite lookup_insert_ne by congruence; apply lookup_insert_eq|].
  all: simpl; rewrite copyTypeFields_id; repeat split.
Qed.

Lemma pull_not_elem (x : ObjectId) (l : list ObjectId) : x ∉ pull x l.
Proof. unfold pull. rewrite list_elem_of_filter. tauto. Qed.

Lemma addToSet_elem (x : ObjectId) (l : list ObjectId) : x ∈ addToSet x l.
Proof.
  unfold addToSet. case_decide; [done|]. apply list_elem_of_In, in_or_app. right. left. done.
Qed.

Lemma lookup_upd_user (m : gmap ObjectId User) (id j : ObjectId) (f : User -> User) :
  upd_user m id f !! j = if decide (j = id) then f <$> (m !! j) else m !! j.
Proof.
  unfold upd_user. destruct (m !! id) as [u|] eqn:E; case_decide; subst.
  - rewrite lookup_insert_eq, E. done.
  - rewrite lookup_insert_ne by congruence. done.
  - rewrite E. done.
  - done.
Qed.

Lemma users_after_assign_consistent (us : gmap ObjectId User) (oid eid : ObjectId) (o : Order) :
  assignment_consistent us oid o ->
  assignment_consistent (users_after_assign us (assignedTo o) eid oid) oid
                        (set_assignedTo (Some eid) o).
Proof.
  unfold assignment_consistent, users_after_assign. rewrite !map_Forall_lookup.
  intros Hc uid u Hl Hr. simpl.
  rewrite lookup_upd_user in Hl. case_decide as Heq.
  - subst uid. split; [done|]. intros _.
    destruct (match assignedTo o with
              | Some p => if decide (p = eid) then us else upd_user us p (pullAssigned oid)
              | None => us end !! eid) eqn:E; simpl in Hl; [|discriminate].
    injection Hl as <-. apply addToSet_elem.
  - split; [|congruence]. intros Hin. exfalso.
    destruct (assignedTo o) as [p|] eqn:Ha.
    + case_decide as Hpe.
      * subst p. apply (Hc uid u Hl Hr) in Hin. congruence.
      * rewrite lookup_upd_user in Hl. case_decide as Hup.
        -- subst uid. destruct (us !! p) eqn:E; simpl in Hl; [|discriminate].
           injection Hl as <-. apply (pull_not_elem oid (assignedOrders u0)). exact Hin.
        -- apply (Hc uid u Hl Hr) in Hin. congruence.
    + apply (Hc uid u Hl Hr) in Hin. congruence.
Qed.

(** C5: an admin's assignment of a stored, schema-valid order (whose write
    succeeds) to a user that is not an employee, or does not exist, replies
    400 and changes nothing; to an employee, it replies 200, stores the
    order assigned to that employee, removes the order from a different
    previous assignee's [assignedOrders], adds it to the new assignee's,
    and keeps every employee's [assignedOrders] consistent with
    [assignedTo] when it was before. *)
Lemma assign_order_consistent (actor : Actor) (id eid : ObjectId) (s : DB) (o : Order)
  (Hadm : actor_role actor = admin)
  (Ho : orders s !! id = Some o)
  (Hv : validate_order o = true)
  (Hw : id ∉ failing_writes s)
  (Hc : assignment_consistent (users s) id o) :
  let (r, s') := handle (assign_order actor id (Some eid)) s in
  match users s !! eid with
  | Some e =>
    if decide (role e = employee) then
      code r = 200 /\
      orders s' !! id = Some (set_assignedTo (Some eid) o) /\
      (exists e', users s' !! eid = Some e' /\ id ∈ assignedOrders e') /\
      (forall p u', assignedTo o = Some p -> p <> eid -> users s' !! p = Some u' ->
                    id ∉ assignedOrders u') /\
      assignment_consistent (users s') id (set_assignedTo (Some eid) o)
    else r = mkResponse 400 B_message /\ s' = s
  | None => r = mkResponse 400 B_message /\ s' = s
  end.
Proof.
  unfold handle, assign_order, bind, findUser, findOrder.
  rewrite decide_True by exact Hadm. simpl.
  destruct (users s !! eid) as [e|] eqn:He; [|split; reflexivity].
  case_decide as Hr; [|split; reflexivity].
  rewrite Ho. unfold saveOrder. rewrite decide_False by exact Hw.
  change (validate_order (set_assignedTo (Some eid) o)) with (validate_order o). rewrite Hv.
  simpl.
  assert (Hu : users (snd (pullFromPrevious (assignedTo o) eid id
                  (with_orders (<[id:=set_assignedTo (Some eid) o]> (orders s)) s))) =
               match assignedTo o with
               | Some p => if decide (p = eid) then users s else upd_user (users s) p (pullAssigned id)
               | None => users s end /\
               fst (pullFromPrevious (assignedTo o) eid id
                  (with_orders (<[id:=set_assignedTo (Some eid) o]> (orders s)) s)) = Done tt /\
               orders (snd (pullFromPrevious (assignedTo o) eid id
                  (with_orders (<[id:=set_assignedTo (Some eid) o]> (orders s)) s))) =
               <[id:=set_assignedTo (Some eid) o]> (orders s)).
  { unfold pullFromPrevious. destruct (assignedTo o) as [p|]; [case_decide|]; done. }
  destruct Hu as (Hu1 & Hu2 & Hu3).
  destruct (pullFromPrevious (assignedTo o) eid id
              (with_orders (<[id:=set_assignedTo (Some eid) o]> (orders s)) s)) as [r1 s1].
  simpl in Hu1, Hu2, Hu3. subst r1. simpl.
  assert (Hcons := users_after_assign_consistent (users s) id eid o Hc).
  unfold users_after_assign in Hcons. rewrite <- Hu1 in Hcons.
  split; [done|]. split; [rewrite Hu3; apply lookup_insert_eq|].
  split; [|split].
  - rewrite lookup_upd_user, decide_True by done.
    destruct (users s1 !! eid) as [e1|] eqn:E1.
    + eexists. split; [reflexivity|]. apply addToSet_elem.
    + exfalso. rewrite Hu1 in E1. destruct (assignedTo o) as [p|]; [case_decide|]; try congruence.
      rewrite lookup_upd_user in E1. case_decide; [subst; rewrite He in E1|]; congruence.
  - intros p u' Hp Hpe Hl. rewrite Hu1, Hp, decide_False in * by done.
    rewrite lookup_upd_user, decide_False in Hl by done.
    rewrite lookup_upd_user, decide_True in Hl by done.
    destruct (users s !! p); simpl in Hl; [|discriminate].
    injection Hl as <-. apply pull_not_elem.
  - exact Hcons.
Qed.

(** The hypotheses of [assign_order_consistent] hold on [db0]. *)
Lemma assign_order_consistent_witness :
  let o := order10 in
  let (r, s') := handle (assign_order (mkActor 4 admin) 10 (Some 3)) db0 in
  match users db0 !! 3 with
  | Some e =>
    if decide (role e = employee) then
      code r = 200 /\
      orders s' !! 10 = Some (set_assignedTo (Some 3) o) /\
      (exists e', users s' !! 3 = Some e' /\ 10 ∈ assignedOrders e') /\
      (forall p u', assignedTo o = Some p -> p <> 3 -> users s' !! p = Some u' ->
                    10 ∉ assignedOrders u') /\
      assignment_consistent (users s') 10 (set_assignedTo (Some 3) o)
    else r = mkResponse 400 B_message /\ s' = db0
  | None => r = mkResponse 400 B_message /\ s' = db0
  end.
Proof.
  apply (assign_order_consistent (mkActor 4 admin) 10 3 db0).
  - reflexivity.
  - reflexivity.
  - vm_compute. reflexivity.
  - apply (bool_decide_unpack _). vm_compute. reflexivity.
  - apply (bool_decide_unpack _). vm_compute. reflexivity.
Defined.

















Lemma handle_snd (m : M Response) (s : DB) : snd (handle m s) = snd (m s).
Proof. unfold handle. destruct (m s) as [[r|] s']; reflexivity. Qed.



(** The mounted POST /pay/:invoiceId re-queries the provider: a
    transaction that is not COMPLETED gives 400 and changes nothing. *)
Lemma pay_invoice_verifies (provider : Provider) (actor : Actor) (iid : ObjectId)
    (t : string) (s : DB) (i : Invoice) (po : ProviderOrder)
  (Hc : actor_role actor = customer)
  (Hi : invoices s !! iid = Some i)
  (Hp : provider t = Some po)
  (Hs : po_status po <> "COMPLETED") :
  handle (pay_invoice provider actor iid t) s = (mkResponse 400 B_message, s).
Proof.
  unfold handle, pay_invoice, bind, findInvoice. rewrite decide_True by exact Hc.
  simpl. rewrite Hi, Hp. apply String.eqb_neq in Hs. rewrite Hs. reflexivity.
Qed.

(** The hypotheses of [pay_invoice_verifies] hold on [db1]. *)
Lemma pay_invoice_verifies_example :
  handle (pay_invoice provider0 (mkActor 1 customer) 1 "TX-1") db1 = (mkResponse 400 B_message, db1).
Proof.
  apply (pay_invoice_verifies provider0 (mkActor 1 customer) 1 "TX-1" db1
           (mkInvoice 1 (Some 11) [] "unpaid" None)
           (mkProviderOrder "TX-1" "CREATED" "P1" "p@example.com")).
  - reflexivity.
  - reflexivity.
  - reflexivity.
  - discriminate.
Defined.

(** C7 counterexample: with the earlier POST /pay/:invoiceId of
    unnamed/part_006, a customer marks invoice 1 paid (200) with the id of
    a transaction the provider reports as CREATED. *)
Lemma pay_invoice_earlier_unverified :
  provider0 "TX-1" = Some (mkProviderOrder "TX-1" "CREATED" "P1" "p@example.com") /\
  paymentStatus <$> (invoices db1 !! 1) = Some "unpaid" /\
  let (r, s') := handle (pay_invoice_earlier (mkActor 1 customer) 1 "TX-1" "P1" "p@example.com") db1 in
  code r = 200 /\ paymentStatus <$> (invoices s' !! 1) = Some "paid".
Proof. vm_compute. repeat split. Qed.

(** C10: GET /:id/pdf serves the PDF of any stored order to any actor,
    with 200 and no change of state: it has no authorization check. *)
Lemma get_order_pdf_no_authorization (actor : Actor) (id : ObjectId) (s : DB) (o : Order)
  (Ho : orders s !! id = Some o) :
  handle (get_order_pdf actor id) s = (mkResponse 200 (B_pdf o), s).
Proof. unfold handle, get_order_pdf, bind, findOrder. simpl. rewrite Ho. reflexivity. Qed.

(** The hypothesis of [get_order_pdf_no_authorization] holds on [db0]. *)
Lemma get_order_pdf_no_authorization_witness :
  handle (get_order_pdf (mkActor 5 customer) 10) db0 =
  (mkResponse 200 (B_pdf (order10)), db0).
Proof. apply get_order_pdf_no_authorization. reflexivity. Defined.

(** C10 counterexample: customer 5 is neither the owner (1) nor the
    assignee (2) of order 10; DELETE /:id refuses it with 403, but GET
    /:id/pdf replies 200. *)
Lemma get_order_pdf_outsider :
  (exists o, orders db0 !! 10 = Some o /\ customerId o = 1 /\ assignedTo o = Some 2) /\
  handle (delete_order (mkActor 5 customer) 10) db0 = (mkResponse 403 B_message, db0) /\
  code (fst (handle (get_order_pdf (mkActor 5 customer) 10) db0)) = 200 /\
  snd (handle (get_order_pdf (mkActor 5 customer) 10) db0) = db0.
Proof. split; [eexists; split; [reflexivity|]; split; reflexivity|]. vm_compute. auto. Qed.

(** C9 counterexample: in a bulk assignment of orders 10 and 11 to
    employee 3 where the write of order 10 fails, the reply is 500 and
    order 11 is not processed (it stays unassigned); the user updates
    made for order 10 before its save stay. *)
Lemma bulk_assign_stops_at_failure :
  let (r, s') := handle (bulk_assign (mkActor 4 admin) [10; 11] (Some 3)) db0_failing10 in
  code r = 500 /\
  orders s' !! 11 = orders db0 !! 11 /\ assignedTo <$> (orders s' !! 11) = Some None /\
  assignedOrders <$> (users s' !! 3) = Some [10] /\
  assignedTo <$> (orders s' !! 10) = Some (Some 2).
Proof. vm_compute. repeat split. Qed.

Lemma pullFromPrevious_effect (prev : option ObjectId) (eid oid : ObjectId) (s : DB) :
  exists us, pullFromPrevious prev eid oid s = (Done tt, with_users us s).
Proof.
  unfold pullFromPrevious. destruct prev as [p|]; [case_decide|].
  - exists (users s). destruct s. reflexivity.
  - eexists. reflexivity.
  - exists (users s). destruct s. reflexivity.
Qed.

Lemma bulk_loop_step (eid oid : ObjectId) (o : Order) (rest : list (ObjectId * Order)) (s : DB) :
  exists s1, orders s1 = orders s /\ failing_writes s1 = failing_writes s /\
  bulk_loop eid ((oid, o) :: rest) s =
  match saveOrder oid (set_assignedTo (Some eid) o) s1 with
  | (Done _, s2) =>
      bind (createNotification (assignedNotification eid oid (set_assignedTo (Some eid) o)))
           (fun _ => bulk_loop eid rest) s2
  | (Thrown, s2) => (Thrown, s2)
  end.
Proof.
  destruct (pullFromPrevious_effect (assignedTo o) eid oid s) as [us Hp].
  eexists. split; [|split]; cycle 2.
  { simpl. unfold bind at 1. rewrite Hp. reflexivity. }
  all: reflexivity.
Qed.

Lemma bulk_loop_ok (eid : ObjectId) (os : list (ObjectId * Order)) (s : DB) :
  NoDup os.*1 -> Forall (save_ok (failing_writes s)) os ->
  exists s', bulk_loop eid os s = (Done tt, s') /\
    (forall q, q ∈ os -> orders s' !! q.1 = Some (set_assignedTo (Some eid) q.2)) /\
    (forall j, j ∉ os.*1 -> orders s' !! j = orders s !! j).
Proof.
  revert s. induction os as [|[oid o] rest IH]; intros s Hnd Hf.
  - exists s. split; [reflexivity|]. split; [intros q Hq; inversion Hq|done].
  - apply NoDup_cons in Hnd as [Hnin Hnd]. apply Forall_cons in Hf as [[Hv Hw] Hf].
    simpl in Hv, Hw.
    destruct (bulk_loop_step eid oid o rest s) as (s1 & Ho1 & Hf1 & ->).
    unfold saveOrder. rewrite decide_False by congruence.
    change (validate_order (set_assignedTo (Some eid) o)) with (validate_order o). rewrite Hv.
    unfold bind, createNotification.
    edestruct (IH (with_notifications
                     (notifications (with_orders (<[oid:=set_assignedTo (Some eid) o]> (orders s1)) s1)
                      ++ [assignedNotification eid oid (set_assignedTo (Some eid) o)])%list
                     (with_orders (<[oid:=set_assignedTo (Some eid) o]> (orders s1)) s1)))
      as (s' & Hrun & Hin & Hout); [exact Hnd| simpl; rewrite Hf1; exact Hf|].
    exists s'. split; [exact Hrun|]. split.
    + intros q Hq. apply elem_of_cons in Hq as [->|Hq]; [|apply Hin, Hq].
      rewrite Hout by exact Hnin. simpl. rewrite Ho1. apply lookup_insert_eq.
    + intros j Hj. simpl in Hj. apply not_elem_of_cons in Hj as [Hj1 Hj2].
      rewrite Hout by exact Hj2. simpl. rewrite Ho1. apply lookup_insert_ne. congruence.
Qed.

Lemma bulk_loop_abort (eid : ObjectId) (pre : list (ObjectId * Order)) (p : ObjectId * Order)
    (post : list (ObjectId * Order)) (s : DB) :
  NoDup (pre ++ p :: post)%list.*1 -> Forall (save_ok (failing_writes s)) pre ->
  ~ save_ok (failing_writes s) p ->
  exists s', bulk_loop eid (pre ++ p :: post)%list s = (Thrown, s') /\
    (forall q, q ∈ pre -> orders s' !! q.1 = Some (set_assignedTo (Some eid) q.2)) /\
    (forall j, j ∉ pre.*1 -> orders s' !! j = orders s !! j).
Proof.
  revert s. induction pre as [|[oid o] rest IH]; intros s Hnd Hf Hbad.
  - destruct p as [pid po]. rewrite app_nil_l.
    destruct (bulk_loop_step eid pid po post s) as (s1 & Ho1 & Hf1 & ->).
    unfold saveOrder. case_decide.
    + exists s1. split; [reflexivity|]. split; [intros q Hq; inversion Hq|].
      intros j _. rewrite Ho1. reflexivity.
    + change (validate_order (set_assignedTo (Some eid) po)) with (validate_order po).
      destruct (validate_order po) eqn:Ev.
      * exfalso. apply Hbad. split; [exact Ev|]. simpl. congruence.
      * exists s1. split; [reflexivity|]. split; [intros q Hq; inversion Hq|].
        intros j _. rewrite Ho1. reflexivity.
  - simpl in Hnd. apply NoDup_cons in Hnd as [Hnin Hnd].
    apply Forall_cons in Hf as [[Hv Hw] Hf]. simpl in Hv, Hw.
    rewrite <- app_comm_cons. destruct (bulk_loop_step eid oid o (rest ++ p :: post)%list s) as (s1 & Ho1 & Hf1 & ->).
    unfold saveOrder. rewrite decide_False by congruence.
    change (validate_order (set_assignedTo (Some eid) o)) with (validate_order o). rewrite Hv.
    unfold bind, createNotification.
    edestruct (IH (with_notifications
                     (notifications (with_orders (<[oid:=set_assignedTo (Some eid) o]> (orders s1)) s1)
                      ++ [assignedNotification eid oid (set_assignedTo (Some eid) o)])%list
                     (with_orders (<[oid:=set_assignedTo (Some eid) o]> (orders s1)) s1)))
      as (s' & Hrun & Hin & Hout);
      [exact Hnd| simpl; rewrite Hf1; exact Hf| simpl; rewrite Hf1; exact Hbad|].
    exists s'. split; [exact Hrun|]. split.
    + intros q Hq. apply elem_of_cons in Hq as [->|Hq]; [|apply Hin, Hq].
      rewrite Hout. { simpl. rewrite Ho1. apply lookup_insert_eq. }
      intros Hc. apply Hnin. rewrite fmap_app. apply elem_of_app. left. exact Hc.
    + intros j Hj. simpl in Hj. apply not_elem_of_cons in Hj as [Hj1 Hj2].
      rewrite Hout by exact Hj2. simpl. rewrite Ho1. apply lookup_insert_ne. congruence.
Qed.

Lemma found_orders_NoDup (s : DB) (ids : list ObjectId) : NoDup (found_orders s ids).*1.
Proof.
  unfold found_orders. apply (sublist_NoDup _ (map_to_list (orders s)).*1); [apply NoDup_fst_map_to_list|].
  apply fmap_sublist, sublist_filter.
Qed.

Lemma found_orders_lookup (s : DB) (ids : list ObjectId) (q : ObjectId * Order) :
  q ∈ found_orders s ids -> orders s !! q.1 = Some q.2.
Proof.
  unfold found_orders. rewrite list_elem_of_filter. intros [_ Hq].
  destruct q. apply elem_of_map_to_list, Hq.
Qed.

Lemma bulk_assign_unfold (actor : Actor) (ids : list ObjectId) (eid : ObjectId) (e : User) (s : DB)
  (Hadm : actor_role actor = admin) (Hids : ids <> []) (He : users s !! eid = Some e)
  (Hr : role e = employee) (Hos : found_orders s ids <> []) :
  handle (bulk_assign actor ids (Some eid)) s =
  handle (bind (bulk_loop eid (found_orders s ids))
               (fun _ => ret (mkResponse 200 (B_assignedCount (List.length (found_orders s ids)))))) s.
Proof.
  unfold bulk_assign. rewrite decide_True by exact Hadm.
  destruct ids as [|i ids']; [contradiction|].
  unfold handle, bind at 1, findUser. simpl. rewrite He. rewrite decide_True by exact Hr.
  unfold bind at 1, findOrdersIn.
  change (filter (fun p => p.1 ∈ i :: ids') (map_to_list (orders s))) with (found_orders s (i :: ids')).
  destruct (found_orders s (i :: ids')); [contradiction|]. reflexivity.
Qed.

(** C9: an admin's bulk assignment to an employee processes the matched
    orders in sequence; when all their writes succeed it replies 200 with
    the number of matched orders, each assigned to the employee; when one
    write fails, the reply is 500, the orders before it keep their
    assignment and that order and the ones after it are left unchanged. *)
Lemma bulk_assign_sequential (actor : Actor) (ids : list ObjectId) (eid : ObjectId) (e : User)
    (s : DB)
  (Hadm : actor_role actor = admin) (Hids : ids <> []) (He : users s !! eid = Some e)
  (Hr : role e = employee) (Hos : found_orders s ids <> []) :
  let (r, s') := handle (bulk_assign actor ids (Some eid)) s in
  (Forall (save_ok (failing_writes s)) (found_orders s ids) ->
     r = mkResponse 200 (B_assignedCount (List.length (found_orders s ids))) /\
     forall q, q ∈ found_orders s ids -> orders s' !! q.1 = Some (set_assignedTo (Some eid) q.2)) /\
  (forall pre p post, found_orders s ids = (pre ++ p :: post)%list ->
     Forall (save_ok (failing_writes s)) pre -> ~ save_ok (failing_writes s) p ->
     code r = 500 /\
     (forall q, q ∈ pre -> orders s' !! q.1 = Some (set_assignedTo (Some eid) q.2)) /\
     (forall q, q ∈ p :: post -> orders s' !! q.1 = Some q.2)).
Proof.
  rewrite (bulk_assign_unfold actor ids eid e s Hadm Hids He Hr Hos).
  pose proof (found_orders_NoDup s ids) as Hnd.
  pose proof (found_orders_lookup s ids) as Hlk.
  destruct (handle _ s) as [r s'] eqn:Eh. split.
  - intros Hf. destruct (bulk_loop_ok eid (found_orders s ids) s Hnd Hf) as (s1 & Hrun & Hin & _).
    unfold handle, bind in Eh. rewrite Hrun in Eh. simpl in Eh. injection Eh as <- <-.
    split; [reflexivity|exact Hin].
  - intros pre p post Hm Hf Hbad. rewrite Hm in Hnd, Eh.
    destruct (bulk_loop_abort eid pre p post s Hnd Hf Hbad) as (s1 & Hrun & Hin & Hout).
    unfold handle, bind in Eh. rewrite Hrun in Eh. injection Eh as <- <-.
    split; [reflexivity|]. split; [exact Hin|].
    intros q Hq. rewrite Hout.
    + apply Hlk. rewrite Hm. apply elem_of_app. right. exact Hq.
    + intros Hc. rewrite fmap_app in Hnd. apply NoDup_app in Hnd as (_ & Hdis & _).
      apply (Hdis q.1 Hc). apply list_elem_of_fmap. exists q. split; [reflexivity|exact Hq].
Qed.

(** The hypotheses of [bulk_assign_sequential] hold on [db0_failing10]. *)
Lemma bulk_assign_sequential_witness :
  let (r, s') := handle (bulk_assign (mkActor 4 admin) [10; 11] (Some 3)) db0_failing10 in
  (Forall (save_ok (failing_writes db0_failing10)) (found_orders db0_failing10 [10; 11]) ->
     r = mkResponse 200 (B_assignedCount (List.length (found_orders db0_failing10 [10; 11]))) /\
     forall q, q ∈ found_orders db0_failing10 [10; 11] ->
       orders s' !! q.1 = Some (set_assignedTo (Some 3) q.2)) /\
  (forall pre p post, found_orders db0_failing10 [10; 11] = (pre ++ p :: post)%list ->
     Forall (save_ok (failing_writes db0_failing10)) pre -> ~ save_ok (failing_writes db0_failing10) p ->
     code r = 500 /\
     (forall q, q ∈ pre -> orders s' !! q.1 = Some (set_assignedTo (Some 3) q.2)) /\
     (forall q, q ∈ p :: post -> orders s' !! q.1 = Some q.2)).
Proof.
  apply (bulk_assign_sequential (mkActor 4 admin) [10; 11] 3 (mkUser employee []) db0_failing10).
  - reflexivity.
  - discriminate.
  - reflexivity.
  - reflexivity.
  - vm_compute. discriminate.
Defined.

Lemma found_orders_elem (s : DB) (ids : list ObjectId) (i : ObjectId) (o : Order) :
  (i, o) ∈ found_orders s ids <-> i ∈ ids /\ orders s !! i = Some o.
Proof.
  unfold found_orders. rewrite list_elem_of_filter, elem_of_map_to_list. simpl. tauto.
Qed.

Lemma found_orders_all (s : DB) (ids : list ObjectId) (i : ObjectId) :
  List.length (found_orders s ids) = List.length ids -> i ∈ ids ->
  exists o, (i, o) ∈ found_orders s ids.
Proof.
  intros Hl Hi.
  assert (Hp : (found_orders s ids).*1 ≡ₚ ids).
  { apply submseteq_length_Permutation.
    - apply NoDup_submseteq; [apply found_orders_NoDup|].
      intros x Hx. apply list_elem_of_fmap in Hx as ([j o] & -> & Hx).
      apply found_orders_elem in Hx as [Hx _]. exact Hx.
    - rewrite length_fmap, Hl. lia. }
  rewrite <- Hp in Hi. apply list_elem_of_fmap in Hi as ([j o] & -> & Hx).
  exists o. exact Hx.
Qed.

Lemma create_invoice_unfold (actor : Actor) (ids : list ObjectId) (s : DB)
  (Hadm : actor_role actor = admin) (Hids : ids <> []) :
  create_invoice_consolidated actor ids s =
  (if negb (Nat.eqb (List.length (found_orders s ids)) (List.length ids)) then reply 404
   else
     match found_orders s ids with
     | [] => throw
     | (_, o0) :: _ =>
       if forallb (fun p => bool_decide (customerId p.2 = customerId o0)) (found_orders s ids) then
         let! cu := findUser (customerId o0) in
         match cu with
         | None => reply 404
         | Some _ =>
           let! iid := createConsolidatedInvoice (customerId o0) (map fst (found_orders s ids)) in
           do! link_orders iid (found_orders s ids) in
           ret (mkResponse 201 (B_invoice iid))
         end
       else reply 400
     end) s.
Proof.
  unfold create_invoice_consolidated. rewrite decide_True by exact Hadm.
  destruct ids; [contradiction|]. reflexivity.
Qed.

Lemma create_invoice_consolidated_state (actor : Actor) (ids : list ObjectId) (s : DB) :
  snd (handle (create_invoice_consolidated actor ids) s) = s.
Proof.
  rewrite handle_snd. unfold create_invoice_consolidated. case_decide; [|reflexivity].
  destruct ids as [|i ids]; [reflexivity|].
  unfold bind, findOrdersIn. cbn.
  repeat (case_match; cbn; try reflexivity).
Qed.

(** C8: an admin's consolidated invoice over a non-empty list of ids
    never writes anything.  It replies 404 when the orders found are fewer
    than the ids given (an unknown or repeated id); otherwise 400 when two
    of the orders have different customers; and otherwise, when the
    customer exists, 500: [Invoice.create] throws, since the document has
    no [orderId], which models/Invoice.js requires, so no invoice is
    created and no order is linked. *)
Lemma create_invoice_consolidated_spec (actor : Actor) (ids : list ObjectId) (s : DB)
  (Hadm : actor_role actor = admin) (Hids : ids <> []) :
  let (r, s') := handle (create_invoice_consolidated actor ids) s in
  s' = s /\
  (List.length (found_orders s ids) <> List.length ids -> r = mkResponse 404 B_message) /\
  (List.length (found_orders s ids) = List.length ids ->
     (exists i j oi oj, i ∈ ids /\ j ∈ ids /\ orders s !! i = Some oi /\
                        orders s !! j = Some oj /\ customerId oi <> customerId oj) ->
     r = mkResponse 400 B_message) /\
  (List.length (found_orders s ids) = List.length ids ->
   forall c cu, users s !! c = Some cu ->
   (forall i o, i ∈ ids -> orders s !! i = Some o -> customerId o = c) ->
   r = mkResponse 500 B_message).
Proof.
  pose proof (create_invoice_consolidated_state actor ids s) as Hst.
  destruct (handle _ s) as [r s'] eqn:Eh. simpl in Hst.
  unfold handle in Eh. rewrite (create_invoice_unfold actor ids s Hadm Hids) in Eh.
  pose proof (found_orders_elem s ids) as Hel.
  pose proof (found_orders_all s ids) as Hall.
  set (os := found_orders s ids) in *. clearbody os.
  split; [exact Hst|]. split; [|split].
  - intros Hl. apply Nat.eqb_neq in Hl. rewrite Hl in Eh. simpl in Eh.
    injection Eh as <- <-. done.
  - intros Hl (i & j & oi & oj & Hi & Hj & Hoi & Hoj & Hne).
    apply Nat.eqb_eq in Hl as Hlb. rewrite Hlb in Eh. simpl in Eh.
    destruct os as [|[k0 o0] rest]; [simpl in Hl; destruct ids; [contradiction|discriminate]|].
    apply Nat.eqb_eq in Hlb.
    assert (Hf : forallb (fun p => bool_decide (customerId p.2 = customerId o0)) ((k0, o0) :: rest) = false).
    { apply not_true_iff_false. intros Hfa. rewrite forallb_forall in Hfa.
      destruct (Hall i Hlb Hi) as [oi' Hi']. destruct (Hall j Hlb Hj) as [oj' Hj'].
      pose proof Hi' as Hi''. pose proof Hj' as Hj''.
      apply Hel in Hi'' as [_ Ei]. apply Hel in Hj'' as [_ Ej].
      apply list_elem_of_In, Hfa, bool_decide_eq_true_1 in Hi'.
      apply list_elem_of_In, Hfa, bool_decide_eq_true_1 in Hj'.
      simpl in Hi', Hj'. apply Hne. congruence. }
    rewrite Hf in Eh. injection Eh as <- <-. done.
  - intros Hl c cu Hc Hok.
    apply Nat.eqb_eq in Hl as Hlb. rewrite Hlb in Eh. simpl in Eh.
    destruct os as [|[k0 o0] rest];
      [simpl in Hl; destruct ids; [contradiction|discriminate]|].
    assert (Hk0 : (k0, o0) ∈ (k0, o0) :: rest) by left.
    apply Hel in Hk0 as [Hk0i Hk0o].
    rewrite (Hok k0 o0 Hk0i Hk0o) in Eh.
    assert (Hf : forallb (fun p => bool_decide (customerId p.2 = c)) ((k0, o0) :: rest) = true).
    { rewrite forallb_forall. intros [i o] Hio. apply bool_decide_eq_true_2.
      apply list_elem_of_In in Hio. apply Hel in Hio as [Hi Ho].
      apply (Hok i o Hi Ho). }
    rewrite Hf in Eh.
    unfold bind at 1, findUser in Eh. rewrite Hc in Eh.
    unfold bind, createConsolidatedInvoice, createInvoice in Eh. simpl in Eh.
    injection Eh as <- <-. reflexivity.
Qed.

(** The hypotheses of [create_invoice_consolidated_spec] hold on [db0]. *)
Lemma create_invoice_consolidated_spec_witness :
  let (r, s') := handle (create_invoice_consolidated (mkActor 4 admin) [10; 11]) db0 in
  s' = db0 /\
  (List.length (found_orders db0 [10; 11]) <> List.length [10; 11] -> r = mkResponse 404 B_message) /\
  (List.length (found_orders db0 [10; 11]) = List.length [10; 11] ->
     (exists i j oi oj, i ∈ [10; 11] /\ j ∈ [10; 11] /\ orders db0 !! i = Some oi /\
                        orders db0 !! j = Some oj /\ customerId oi <> customerId oj) ->
     r = mkResponse 400 B_message) /\
  (List.length (found_orders db0 [10; 11]) = List.length [10; 11] ->
   forall c cu, users db0 !! c = Some cu ->
   (forall i o, i ∈ [10; 11] -> orders db0 !! i = Some o -> customerId o = c) ->
   r = mkResponse 500 B_message).
Proof.
  apply (create_invoice_consolidated_spec (mkActor 4 admin) [10; 11] db0).
  - reflexivity.
  - discriminate.
Defined.

(** C8 counterexample: orders 10 and 11 both belong to customer 1, who
    exists, and both are valid with no failing write; yet the consolidated
    invoice creation by an admin replies 500 and writes nothing: no
    invoice is created and neither order is linked. *)
Lemma create_invoice_consolidated_fails :
  (exists o10 o11, orders db0 !! 10 = Some o10 /\ orders db0 !! 11 = Some o11 /\
     customerId o10 = 1 /\ customerId o11 = 1 /\
     validate_order o10 = true /\ validate_order o11 = true) /\
  users db0 !! 1 <> None /\ failing_writes db0 = [] /\
  handle (create_invoice_consolidated (mkActor 4 admin) [10; 11]) db0 =
  (mkResponse 500 B_message, db0).
Proof.
  split.
  - destruct (orders db0 !! 10) as [o10|] eqn:E10; [|discriminate].
    destruct (orders db0 !! 11) as [o11|] eqn:E11; [|discriminate].
    exists o10, o11. split; [reflexivity|]. split; [reflexivity|].
    vm_compute in E10, E11. injection E10 as <-. injection E11 as <-.
    split; [reflexivity|]. split; [reflexivity|]. split; vm_compute; reflexivity.
  - split; [discriminate|]. split; [reflexivity|]. vm_compute. reflexivity.
Qed.

Lemma markLinkedOrderPaid_invoices (i : Invoice) (s : DB) :
  invoices (snd (markLinkedOrderPaid i s)) = invoices s.
Proof.
  unfold markLinkedOrderPaid. destruct (inv_orderId i) as [oid|]; [|reflexivity].
  unfold bind, findOrder. simpl. destruct (orders s !! oid) as [o|]; [|reflexivity].
  unfold saveOrder. case_decide; [reflexivity|]. destruct (validate_order _); reflexivity.
Qed.

(** C7: the earlier POST /pay/:invoiceId of unnamed/part_006 never
    queries the payment provider: for any transaction id, the invoice is
    stored as paid with the payment details taken from the request. *)
Lemma pay_invoice_earlier_trusts_client (actor : Actor) (iid : ObjectId)
    (t payer email : string) (s : DB) (i : Invoice)
  (Hc : actor_role actor = customer)
  (Hi : invoices s !! iid = Some i) :
  invoices (snd (handle (pay_invoice_earlier actor iid t payer email) s)) !! iid =
  Some (markPaid i (mkPaymentDetails t payer email)) /\
  paymentStatus (markPaid i (mkPaymentDetails t payer email)) = "paid".
Proof.
  split; [|reflexivity].
  rewrite handle_snd. unfold pay_invoice_earlier, bind, findInvoice.
  rewrite decide_True by exact Hc. simpl. rewrite Hi. unfold saveInvoice. simpl.
  destruct (markLinkedOrderPaid _ _) as [[[]|] s1] eqn:E;
    simpl; pose proof (markLinkedOrderPaid_invoices
                         (markPaid i (mkPaymentDetails t payer email))
                         (with_invoices (<[iid:=markPaid i (mkPaymentDetails t payer email)]> (invoices s)) s)) as Hm;
    rewrite E in Hm; simpl in Hm; rewrite Hm; apply lookup_insert_eq.
Qed.

(** The hypotheses of [pay_invoice_earlier_trusts_client] hold on [db1]. *)
Lemma pay_invoice_earlier_trusts_client_witness :
  invoices (snd (handle (pay_invoice_earlier (mkActor 1 customer) 1 "TX-1" "P1" "p@example.com") db1)) !! 1 =
  Some (markPaid (mkInvoice 1 (Some 11) [] "unpaid" None) (mkPaymentDetails "TX-1" "P1" "p@example.com")) /\
  paymentStatus (markPaid (mkInvoice 1 (Some 11) [] "unpaid" None)
                          (mkPaymentDetails "TX-1" "P1" "p@example.com")) = "paid".
Proof. apply pay_invoice_earlier_trusts_client; reflexivity. Defined.



(** The hypotheses of [employee_submit_pending] hold on [db0]. *)
Lemma employee_submit_pending_witness :
  let b := mkSubmitBody None (Some [mkPendingFile "u2" "s.png" "first try"]) (Some "done") None in
  let (r, s') := handle (employee_submit (mkActor 2 employee) 10 b) db0 in
  code r = 200 /\
  exists o', orders s' !! 10 = Some o' /\
    employeePendingWork o' =
      mkPendingWork true (js_or (sb_pendingStatus b) "Waiting for Approval")
        (match sb_pendingFiles b with Some fs => fs | None => [] end)
        (js_or (sb_pendingReport b) (js_or (sb_comments b) ""))
        (Some 2) "" false /\
    status o' = status order10 /\ sampleImages o' = sampleImages order10.
Proof.
  apply (employee_submit_pending (mkActor 2 employee) 10 _ db0 order10).
  - reflexivity.
  - reflexivity.
  - reflexivity.
  - vm_compute. reflexivity.
  - apply (bool_decide_unpack _). vm_compute. reflexivity.
Defined.

(** The hypotheses of [admin_reject_keeps_work] hold on [db2]. *)
Lemma admin_reject_keeps_work_witness :
  let (r, s') := handle (admin_reject_work (mkActor 4 admin) 10 (Some "blurry")) db2 in
  let p := employeePendingWork order10_pending in
  code r = 200 /\
  (exists o', orders s' !! 10 = Some o' /\
    hasPendingWork (employeePendingWork o') = false /\
    pendingFiles (employeePendingWork o') = pendingFiles p /\
    pendingStatus (employeePendingWork o') = pendingStatus p /\
    pendingReport (employeePendingWork o') = pendingReport p /\
    rejectionReason (employeePendingWork o') = js_or (Some "blurry") "Work needs revision" /\
    wasRejected (employeePendingWork o') = true) /\
  exists n, notifications s' = (notifications db2 ++ [n])%list /\
    n_type n = "work_rejected" /\ n_userId n = 2 /\ n_userId n <> customerId order10_pending /\
    exists pre, n_message n = pre ++ js_or (Some "blurry") "Work needs revision".
Proof.
  apply (admin_reject_keeps_work (mkActor 4 admin) 10 (Some "blurry") db2 order10_pending 2).
  - reflexivity.
  - reflexivity.
  - reflexivity.
  - reflexivity.
  - discriminate.
  - vm_compute. reflexivity.
  - apply (bool_decide_unpack _). vm_compute. reflexivity.
Defined.

(** The hypotheses of [create_revision_effect] hold on [db0]. *)
Lemma create_revision_effect_witness :
  let s' := snd (handle (create_revision (mkActor 1 customer) 10 (Some "colours") "001") db0) in
  (exists p', orders s' !! 10 = Some p' /\ status p' = "Superseded") /\
  exists rid r, rid <> 10 /\ orders db0 !! rid = None /\ orders s' !! rid = Some r /\
    parentOrderId (revision r) = Some 10 /\ isRevision (revision r) = true /\
    revisionNumber (revision r) =
      List.length (filter (fun q => parentOrderId (revision q.2) = Some 10)
                          (map_to_list (orders db0))) + 1 /\
    orderType r = orderType order10 /\ fields r = fields order10 /\
    files r = files order10 /\ items r = items order10.
Proof.
  apply (create_revision_effect (mkActor 1 customer) 10 (Some "colours") "001" db0 order10
           (mkUser customer [])).
  - reflexivity.
  - reflexivity.
  - reflexivity.
  - vm_compute. reflexivity.
  - apply (bool_decide_unpack _). vm_compute. reflexivity.
Defined.

(* ------------------------------------------------------------------ *)
(** ** Customer approval, revision requests and sample uploads *)

Lemma validate_set_approval o v :
  validate_order o = true ->
  validate_order (set_customerApprovalStatus v o) =
    in_enum v ["pending"; "approved"; "revision_requested"].
Proof.
  unfold validate_order. simpl. intros H.
  repeat rewrite andb_true_iff in H. destruct_and!.
  repeat match goal with Hx : _ = true |- _ => rewrite Hx; clear Hx end.
  simpl. rewrite ?andb_true_r. reflexivity.
Qed.

Lemma validate_set_notes o n : validate_order (set_notes n o) = validate_order o.
Proof. reflexivity. Qed.

Lemma validate_upload o st imgs :
  validate_order o = true ->
  Forall (fun i => s_type i = "initial" \/ s_type i = "revision") imgs ->
  validate_order (set_status st (set_sampleImages (sampleImages o ++ imgs)%list o)) =
    in_enum st orderStatuses.
Proof.
  unfold validate_order. simpl. intros H Hi.
  repeat rewrite andb_true_iff in H. destruct_and!.
  rewrite forallb_app.
  assert (Hb : forallb (fun si => in_enum (s_type si) ["initial"; "revision"]) imgs = true).
  { apply forallb_forall. intros i Hin. rewrite Forall_forall in Hi.
    destruct (Hi i (proj2 (list_elem_of_In _ _) Hin)) as [E|E]; rewrite E; reflexivity. }
  rewrite Hb.
  repeat match goal with Hx : _ = true |- _ => rewrite Hx; clear Hx end.
  simpl. rewrite ?andb_true_r. reflexivity.
Qed.

Lemma upload_images_type ty dflt b rf imgs :
  upload_images ty dflt b rf = Some imgs ->
  Forall (fun i => s_type i = ty /\ s_comments i = js_or (ub_comments b) "") imgs.
Proof.
  unfold upload_images. intros H.
  destruct (ub_files b) as [fs|].
  - injection H as <-. apply Forall_forall. intros i Hin.
    apply list_elem_of_fmap in Hin as (f & -> & _). simpl. split; reflexivity.
  - repeat case_match; simplify_eq; repeat constructor.
Qed.

Lemma upload_sample_run actor id b rf s o imgs :
  actor_role actor = admin -> orders s !! id = Some o ->
  upload_images "initial" "sample.jpg" b rf = Some imgs ->
  validate_order o = true -> id ∉ failing_writes s ->
  let o' := set_status "Waiting for Approval" (set_sampleImages (sampleImages o ++ imgs)%list o) in
  handle (upload_sample actor id b rf) s =
    (mkResponse 200 (B_order o'),
     with_notifications (notifications s ++ [sampleNotification id o'])%list
       (with_orders (<[id:=o']> (orders s)) s)).
Proof.
  intros Ha Ho Hi Hv Hf o'.
  assert (Hv' : validate_order o' = true).
  { unfold o'. rewrite validate_upload; [reflexivity|exact Hv|].
    eapply Forall_impl; [exact (upload_images_type _ _ _ _ _ Hi)|]. simpl. tauto. }
  unfold handle, upload_sample, bind, findOrder. rewrite decide_True by done.
  simpl. rewrite Ho, Hi. unfold saveOrder. rewrite decide_False by done.
  fold o'. rewrite Hv'. reflexivity.
Qed.

Lemma upload_revision_run actor id b rf s o imgs :
  actor_role actor = admin -> orders s !! id = Some o ->
  upload_images "revision" "revision.jpg" b rf = Some imgs ->
  validate_order o = true -> id ∉ failing_writes s ->
  let o' := set_status "Revision Ready" (set_sampleImages (sampleImages o ++ imgs)%list o) in
  handle (upload_revision actor id b rf) s =
    (mkResponse 200 (B_order o'),
     with_notifications (notifications s ++ [revisionNotification id o'])%list
       (with_orders (<[id:=o']> (orders s)) s)).
Proof.
  intros Ha Ho Hi Hv Hf o'.
  assert (Hv' : validate_order o' = true).
  { unfold o'. rewrite validate_upload; [reflexivity|exact Hv|].
    eapply Forall_impl; [exact (upload_images_type _ _ _ _ _ Hi)|]. simpl. tauto. }
  unfold handle, upload_revision, bind, findOrder. rewrite decide_True by done.
  simpl. rewrite Ho, Hi. unfold saveOrder. rewrite decide_False by done.
  fold o'. rewrite Hv'. reflexivity.
Qed.

Lemma string_app_nil_r (x : string) : (x ++ "")%string = x.
Proof.
  induction x as [|c x IH]; [reflexivity|].
  change (String c (x ++ "") = String c x). rewrite IH. reflexivity.
Qed.

Lemma eqb_empty_self (x : string) : (if String.eqb x "" then "" else x) = x.
Proof. destruct (String.eqb_spec x ""); subst; reflexivity. Qed.

(** For the customer who owns the order, PATCH /:id/approve and PATCH
    /:id/revision-approve both answer 200 and store the order with
    [customerApprovalStatus] set to "approved" and every other field,
    the [status] included, unchanged. *)
Lemma approve_owner_effect (actor : Actor) (id : ObjectId) (s : DB) (o : Order) :
  orders s !! id = Some o -> customerId o = actor_id actor ->
  validate_order o = true -> id ∉ failing_writes s ->
  let o' := set_customerApprovalStatus "approved" o in
  handle (approve_order actor id) s =
    (mkResponse 200 (B_order o'), with_orders (<[id:=o']> (orders s)) s) /\
  handle (revision_approve actor id) s =
    (mkResponse 200 (B_order o'), with_orders (<[id:=o']> (orders s)) s) /\
  status o' = status o.
Proof.
  intros Ho Hc Hv Hf o'.
  assert (Hv' : validate_order o' = true).
  { unfold o'. rewrite validate_set_approval by exact Hv. reflexivity. }
  unfold handle, approve_order, revision_approve, bind, findOrder. simpl. rewrite Ho.
  rewrite decide_True by exact Hc. unfold saveOrder. rewrite decide_False by exact Hf.
  fold o'. rewrite Hv'. split; [reflexivity|]. split; reflexivity.
Qed.

Lemma approve_owner_effect_witness :
  (orders db0 !! 10 = Some order10 /\ customerId order10 = actor_id (mkActor 1 customer) /\
   validate_order order10 = true /\ 10 ∉ failing_writes db0) /\
  let o' := set_customerApprovalStatus "approved" order10 in
  handle (approve_order (mkActor 1 customer) 10) db0 =
    (mkResponse 200 (B_order o'), with_orders (<[10:=o']> (orders db0)) db0) /\
  handle (revision_approve (mkActor 1 customer) 10) db0 =
    (mkResponse 200 (B_order o'), with_orders (<[10:=o']> (orders db0)) db0) /\
  status o' = status order10.
Proof.
  split.
  - split; [reflexivity|]. split; [reflexivity|]. split; [vm_compute; reflexivity|].
    apply (bool_decide_unpack _). vm_compute. reflexivity.
  - apply (approve_owner_effect (mkActor 1 customer) 10 db0 order10).
    + reflexivity.
    + reflexivity.
    + vm_compute. reflexivity.
    + apply (bool_decide_unpack _). vm_compute. reflexivity.
Defined.

(** Only the customer who owns the order may use the approval routes: for
    anybody else, an admin included, PATCH /:id/approve, PATCH
    /:id/revision-approve and PATCH /:id/revision-request answer 403 and
    change nothing. *)
Lemma approval_routes_owner_only (actor : Actor) (id : ObjectId) (comments : option string)
    (s : DB) (o : Order) :
  orders s !! id = Some o -> customerId o <> actor_id actor ->
  handle (approve_order actor id) s = (mkResponse 403 B_message, s) /\
  handle (revision_approve actor id) s = (mkResponse 403 B_message, s) /\
  handle (revision_request actor id comments) s = (mkResponse 403 B_message, s).
Proof.
  intros Ho Hc.
  unfold handle, approve_order, revision_approve, revision_request, bind, findOrder.
  simpl. rewrite Ho. rewrite !decide_False by exact Hc. repeat split.
Qed.

Lemma approval_routes_owner_only_witness :
  (orders db0 !! 10 = Some order10 /\ customerId order10 <> actor_id (mkActor 4 admin)) /\
  handle (approve_order (mkActor 4 admin) 10) db0 = (mkResponse 403 B_message, db0) /\
  handle (revision_approve (mkActor 4 admin) 10) db0 = (mkResponse 403 B_message, db0) /\
  handle (revision_request (mkActor 4 admin) 10 (Some "x")) db0 = (mkResponse 403 B_message, db0).
Proof.
  split; [split; [reflexivity|discriminate]|].
  apply (approval_routes_owner_only (mkActor 4 admin) 10 (Some "x") db0 order10).
  - reflexivity.
  - discriminate.
Defined.

(** PATCH /:id/revision-request by the owner sets [customerApprovalStatus]
    to "revision_requested" and keeps the old notes as a prefix of the new
    ones: a non-empty comment is appended after a newline and
    "Revision Request: ", and without one the notes are unchanged; the
    [status] is not touched. *)
Lemma revision_request_effect (actor : Actor) (id : ObjectId) (comments : option string)
    (s : DB) (o : Order) :
  orders s !! id = Some o -> customerId o = actor_id actor ->
  validate_order o = true -> id ∉ failing_writes s ->
  let (r, s') := handle (revision_request actor id comments) s in
  code r = 200 /\
  exists o', orders s' !! id = Some o' /\
    customerApprovalStatus o' = "revision_requested" /\ status o' = status o /\
    notes o' = (notes o ++ match comments with
                           | Some c => if truthy (Some c)
                                       then newline ++ "Revision Request: " ++ c else ""
                           | None => ""
                           end)%string /\
    orders s' = <[id:=o']> (orders s).
Proof.
  intros Ho Hc Hv Hf.
  set (o1 := set_customerApprovalStatus "revision_requested" o).
  assert (Hv1 : validate_order o1 = true).
  { unfold o1. rewrite validate_set_approval by exact Hv. reflexivity. }
  unfold handle, revision_request, bind, findOrder. simpl. rewrite Ho.
  rewrite decide_True by exact Hc. fold o1. unfold saveOrder. rewrite decide_False by exact Hf.
  destruct comments as [c|]; [destruct (String.eqb c "") eqn:Ht|]; simpl; rewrite ?Ht; simpl.
  - rewrite Hv1. simpl. split; [reflexivity|].
    eexists. split; [apply lookup_insert_eq|]. simpl.
    rewrite string_app_nil_r. repeat split.
  - rewrite validate_set_notes, Hv1. simpl. split; [reflexivity|].
    eexists. split; [apply lookup_insert_eq|]. simpl.
    rewrite eqb_empty_self. repeat split.
  - rewrite Hv1. simpl. split; [reflexivity|].
    eexists. split; [apply lookup_insert_eq|]. simpl.
    rewrite string_app_nil_r. repeat split.
Qed.

Lemma revision_request_effect_witness :
  (orders db0 !! 10 = Some order10 /\ customerId order10 = actor_id (mkActor 1 customer) /\
   validate_order order10 = true /\ 10 ∉ failing_writes db0) /\
  let (r, s') := handle (revision_request (mkActor 1 customer) 10 (Some "bigger")) db0 in
  code r = 200 /\
  exists o', orders s' !! 10 = Some o' /\
    customerApprovalStatus o' = "revision_requested" /\ status o' = status order10 /\
    notes o' = (notes order10 ++ match Some "bigger" with
                           | Some c => if truthy (Some c)
                                       then newline ++ "Revision Request: " ++ c else ""
                           | None => ""
                           end)%string /\
    orders s' = <[10:=o']> (orders db0).
Proof.
  split.
  - split; [reflexivity|]. split; [reflexivity|]. split; [vm_compute; reflexivity|].
    apply (bool_decide_unpack _). vm_compute. reflexivity.
  - apply (revision_request_effect (mkActor 1 customer) 10 (Some "bigger") db0 order10).
    + reflexivity.
    + reflexivity.
    + vm_compute. reflexivity.
    + apply (bool_decide_unpack _). vm_compute. reflexivity.
Defined.

(** The choice of the uploaded images in POST /:id/sample and POST
    /:id/revision: a [files] array, even an empty one, takes precedence
    and gives one image per element with the element's url; otherwise a
    non-empty [cloudinaryUrl], and then a multer file, give exactly one
    image; with none of them there is no image (the 400 branch).  Every
    image gets the route's type and the request's [comments] (or ""). *)
Lemma upload_images_spec (ty dflt : string) (b : UploadBody) (rf : option string) :
  match upload_images ty dflt b rf with
  | Some imgs =>
    Forall (fun i => s_type i = ty /\ s_comments i = js_or (ub_comments b) "") imgs /\
    match ub_files b with
    | Some fs => map s_url imgs = map uf_url fs
    | None => exists i, imgs = [i]
    end
  | None => ub_files b = None /\ truthy (ub_cloudinaryUrl b) = false /\ rf = None
  end.
Proof.
  destruct (upload_images ty dflt b rf) as [imgs|] eqn:E.
  - split; [exact (upload_images_type _ _ _ _ _ E)|].
    unfold upload_images in E. destruct (ub_files b) as [fs|].
    + injection E as <-. rewrite map_map. simpl. reflexivity.
    + repeat case_match; simplify_eq; eexists; reflexivity.
  - unfold upload_images in E. destruct (ub_files b) as [fs|]; [discriminate|].
    unfold truthy. repeat case_match; simplify_eq; auto.
Qed.

(** POST /:id/sample by an admin on a valid order: the response is 200,
    the new images (all of type "initial") are appended after the old
    ones, the status becomes "Waiting for Approval", and one
    "sample_uploaded" notification is added for the order's customer. *)
Lemma upload_sample_effect (actor : Actor) (id : ObjectId) (b : UploadBody)
    (rf : option string) (s : DB) (o : Order) (imgs : list SampleImage) :
  actor_role actor = admin -> orders s !! id = Some o ->
  upload_images "initial" "sample.jpg" b rf = Some imgs ->
  validate_order o = true -> id ∉ failing_writes s ->
  let (r, s') := handle (upload_sample actor id b rf) s in
  code r = 200 /\
  exists o', orders s' !! id = Some o' /\
    sampleImages o' = (sampleImages o ++ imgs)%list /\
    Forall (fun i => s_type i = "initial") imgs /\
    status o' = "Waiting for Approval" /\
    notifications s' = (notifications s ++ [sampleNotification id o'])%list /\
    n_userId (sampleNotification id o') = customerId o /\
    n_type (sampleNotification id o') = "sample_uploaded".
Proof.
  intros Ha Ho Hi Hv Hf.
  rewrite (upload_sample_run actor id b rf s o imgs Ha Ho Hi Hv Hf).
  split; [reflexivity|]. eexists. split; [apply lookup_insert_eq|].
  split; [reflexivity|]. split.
  - eapply Forall_impl; [exact (upload_images_type _ _ _ _ _ Hi)|]. simpl. tauto.
  - repeat split.
Qed.

Lemma upload_sample_effect_witness :
  let b := mkUploadBody (Some [mkUploadFile "https://c/x.png" None (Some "x.png")]) None None None in
  (actor_role (mkActor 4 admin) = admin /\ orders db0 !! 10 = Some order10 /\
   upload_images "initial" "sample.jpg" b None =
     Some [mkSample "https://c/x.png" "x.png" "initial" ""] /\
   validate_order order10 = true /\ 10 ∉ failing_writes db0) /\
  let (r, s') := handle (upload_sample (mkActor 4 admin) 10 b None) db0 in
  code r = 200 /\
  exists o', orders s' !! 10 = Some o' /\
    sampleImages o' = (sampleImages order10 ++ [mkSample "https://c/x.png" "x.png" "initial" ""])%list /\
    Forall (fun i => s_type i = "initial") [mkSample "https://c/x.png" "x.png" "initial" ""] /\
    status o' = "Waiting for Approval" /\
    notifications s' = (notifications db0 ++ [sampleNotification 10 o'])%list /\
    n_userId (sampleNotification 10 o') = customerId order10 /\
    n_type (sampleNotification 10 o') = "sample_uploaded".
Proof.
  split.
  - split; [reflexivity|]. split; [reflexivity|]. split; [reflexivity|].
    split; [vm_compute; reflexivity|]. apply (bool_decide_unpack _). vm_compute. reflexivity.
  - apply (upload_sample_effect (mkActor 4 admin) 10 _ None db0 order10).
    + reflexivity.
    + reflexivity.
    + reflexivity.
    + vm_compute. reflexivity.
    + apply (bool_decide_unpack _). vm_compute. reflexivity.
Defined.

(** POST /:id/revision by an admin on a valid order: the response is 200,
    the new images (all of type "revision") are appended after the old
    ones, the status becomes "Revision Ready", and one "revision_uploaded"
    notification is added for the order's customer. *)
Lemma upload_revision_effect (actor : Actor) (id : ObjectId) (b : UploadBody)
    (rf : option string) (s : DB) (o : Order) (imgs : list SampleImage) :
  actor_role actor = admin -> orders s !! id = Some o ->
  upload_images "revision" "revision.jpg" b rf = Some imgs ->
  validate_order o = true -> id ∉ failing_writes s ->
  let (r, s') := handle (upload_revision actor id b rf) s in
  code r = 200 /\
  exists o', orders s' !! id = Some o' /\
    sampleImages o' = (sampleImages o ++ imgs)%list /\
    Forall (fun i => s_type i = "revision") imgs /\
    status o' = "Revision Ready" /\
    notifications s' = (notifications s ++ [revisionNotification id o'])%list /\
    n_userId (revisionNotification id o') = customerId o /\
    n_type (revisionNotification id o') = "revision_uploaded".
Proof.
  intros Ha Ho Hi Hv Hf.
  rewrite (upload_revision_run actor id b rf s o imgs Ha Ho Hi Hv Hf).
  split; [reflexivity|]. eexists. split; [apply lookup_insert_eq|].
  split; [reflexivity|]. split.
  - eapply Forall_impl; [exact (upload_images_type _ _ _ _ _ Hi)|]. simpl. tauto.
  - repeat split.
Qed.

Lemma upload_revision_effect_witness :
  let b := mkUploadBody None (Some "https://c/r.png") None (Some "v2") in
  (actor_role (mkActor 4 admin) = admin /\ orders db0 !! 10 = Some order10 /\
   upload_images "revision" "revision.jpg" b None =
     Some [mkSample "https://c/r.png" "revision.jpg" "revision" "v2"] /\
   validate_order order10 = true /\ 10 ∉ failing_writes db0) /\
  let (r, s') := handle (upload_revision (mkActor 4 admin) 10 b None) db0 in
  code r = 200 /\
  exists o', orders s' !! 10 = Some o' /\
    sampleImages o' =
      (sampleImages order10 ++ [mkSample "https://c/r.png" "revision.jpg" "revision" "v2"])%list /\
    Forall (fun i => s_type i = "revision") [mkSample "https://c/r.png" "revision.jpg" "revision" "v2"] /\
    status o' = "Revision Ready" /\
    notifications s' = (notifications db0 ++ [revisionNotification 10 o'])%list /\
    n_userId (revisionNotification 10 o') = customerId order10 /\
    n_type (revisionNotification 10 o') = "revision_uploaded".
Proof.
  split.
  - split; [reflexivity|]. split; [reflexivity|]. split; [reflexivity|].
    split; [vm_compute; reflexivity|]. apply (bool_decide_unpack _). vm_compute. reflexivity.
  - apply (upload_revision_effect (mkActor 4 admin) 10 _ None db0 order10).
    + reflexivity.
    + reflexivity.
    + reflexivity.
    + vm_compute. reflexivity.
    + apply (bool_decide_unpack _). vm_compute. reflexivity.
Defined.

(** An empty [files] array counts as an upload: POST /:id/sample then
    answers 200 and, although no image is added, still sets the status to
    "Waiting for Approval" and notifies the customer that a sample was
    uploaded. *)
Lemma upload_sample_empty_files (actor : Actor) (id : ObjectId) (b : UploadBody)
    (rf : option string) (s : DB) (o : Order) :
  actor_role actor = admin -> orders s !! id = Some o -> ub_files b = Some [] ->
  validate_order o = true -> id ∉ failing_writes s ->
  let (r, s') := handle (upload_sample actor id b rf) s in
  code r = 200 /\
  exists o', orders s' !! id = Some o' /\ sampleImages o' = sampleImages o /\
    status o' = "Waiting for Approval" /\
    notifications s' = (notifications s ++ [sampleNotification id o'])%list.
Proof.
  intros Ha Ho Hb Hv Hf.
  assert (Hi : upload_images "initial" "sample.jpg" b rf = Some []).
  { unfold upload_images. rewrite Hb. reflexivity. }
  rewrite (upload_sample_run actor id b rf s o [] Ha Ho Hi Hv Hf).
  split; [reflexivity|]. eexists. split; [apply lookup_insert_eq|].
  simpl. rewrite app_nil_r. repeat split.
Qed.

Lemma upload_sample_empty_files_witness :
  let b := mkUploadBody (Some []) (Some "https://c/ignored.png") None None in
  (actor_role (mkActor 4 admin) = admin /\ orders db0 !! 10 = Some order10 /\
   ub_files b = Some [] /\ validate_order order10 = true /\ 10 ∉ failing_writes db0) /\
  let (r, s') := handle (upload_sample (mkActor 4 admin) 10 b (Some "f.png")) db0 in
  code r = 200 /\
  exists o', orders s' !! 10 = Some o' /\ sampleImages o' = sampleImages order10 /\
    status o' = "Waiting for Approval" /\
    notifications s' = (notifications db0 ++ [sampleNotification 10 o'])%list.
Proof.
  split.
  - split; [reflexivity|]. split; [reflexivity|]. split; [reflexivity|].
    split; [vm_compute; reflexivity|]. apply (bool_decide_unpack _). vm_compute. reflexivity.
  - apply (upload_sample_empty_files (mkActor 4 admin) 10 _ (Some "f.png") db0 order10).
    + reflexivity.
    + reflexivity.
    + reflexivity.
    + vm_compute. reflexivity.
    + apply (bool_decide_unpack _). vm_compute. reflexivity.
Defined.

(** With neither a [files] array, nor a non-empty [cloudinaryUrl], nor an
    uploaded file, both upload routes answer 400 to an admin and write
    nothing. *)
Lemma upload_no_input (actor : Actor) (id : ObjectId) (b : UploadBody) (s : DB) (o : Order) :
  actor_role actor = admin -> orders s !! id = Some o ->
  ub_files b = None -> truthy (ub_cloudinaryUrl b) = false ->
  handle (upload_sample actor id b None) s = (mkResponse 400 B_message, s) /\
  handle (upload_revision actor id b None) s = (mkResponse 400 B_message, s).
Proof.
  intros Ha Ho Hb Hc.
  assert (Hn : forall ty dflt, upload_images ty dflt b None = None).
  { intros ty dflt. unfold upload_images. rewrite Hb.
    destruct (ub_cloudinaryUrl b) as [u|]; [|reflexivity].
    rewrite Hc. reflexivity. }
  unfold handle, upload_sample, upload_revision, bind, findOrder.
  rewrite !decide_True by exact Ha. simpl. rewrite Ho, !Hn. split; reflexivity.
Qed.

Lemma upload_no_input_witness :
  let b := mkUploadBody None (Some "") (Some "x.png") (Some "note") in
  (actor_role (mkActor 4 admin) = admin /\ orders db0 !! 10 = Some order10 /\
   ub_files b = None /\ truthy (ub_cloudinaryUrl b) = false) /\
  handle (upload_sample (mkActor 4 admin) 10 b None) db0 = (mkResponse 400 B_message, db0) /\
  handle (upload_revision (mkActor 4 admin) 10 b None) db0 = (mkResponse 400 B_message, db0).
Proof.
  split.
  - repeat split.
  - apply (upload_no_input (mkActor 4 admin) 10 _ db0 order10).
    + reflexivity.
    + reflexivity.
    + reflexivity.
    + reflexivity.
Defined.

(** The admin-only routes refuse every other caller: sample and revision
    uploads, single and bulk assignment, approval and rejection of
    employee work, and the consolidated invoice answer 403 and change
    nothing; the pending-work list and the employee analytics answer 403
    with no data. *)
Lemma admin_only_routes (actor : Actor) (s : DB) (id : ObjectId) (ids : list ObjectId)
    (e : option ObjectId) (b : UploadBody) (rf reason : option string) :
  actor_role actor <> admin ->
  handle (upload_sample actor id b rf) s = (mkResponse 403 B_message, s) /\
  handle (upload_revision actor id b rf) s = (mkResponse 403 B_message, s) /\
  handle (assign_order actor id e) s = (mkResponse 403 B_message, s) /\
  handle (bulk_assign actor ids e) s = (mkResponse 403 B_message, s) /\
  handle (admin_approve_work actor id) s = (mkResponse 403 B_message, s) /\
  handle (admin_reject_work actor id reason) s = (mkResponse 403 B_message, s) /\
  handle (create_invoice_consolidated actor ids) s = (mkResponse 403 B_message, s) /\
  handle_read (pending_employee_work actor) s = (403, None) /\
  handle_read (employee_analytics actor) s = (403, None).
Proof.
  intros Hn.
  unfold handle, handle_read, upload_sample, upload_revision, assign_order, bulk_assign,
    admin_approve_work, admin_reject_work, create_invoice_consolidated,
    pending_employee_work, employee_analytics.
  rewrite !decide_False by exact Hn.
  rewrite bool_decide_eq_false_2 by exact Hn.
  repeat split.
Qed.

Lemma admin_only_routes_witness :
  actor_role (mkActor 2 employee) <> admin /\
  handle (upload_sample (mkActor 2 employee) 10 (mkUploadBody (Some []) None None None) None) db0 =
    (mkResponse 403 B_message, db0) /\
  handle (upload_revision (mkActor 2 employee) 10 (mkUploadBody (Some []) None None None) None) db0 =
    (mkResponse 403 B_message, db0) /\
  handle (assign_order (mkActor 2 employee) 10 (Some 2)) db0 = (mkResponse 403 B_message, db0) /\
  handle (bulk_assign (mkActor 2 employee) [10] (Some 2)) db0 = (mkResponse 403 B_message, db0) /\
  handle (admin_approve_work (mkActor 2 employee) 10) db0 = (mkResponse 403 B_message, db0) /\
  handle (admin_reject_work (mkActor 2 employee) 10 None) db0 = (mkResponse 403 B_message, db0) /\
  handle (create_invoice_consolidated (mkActor 2 employee) [10]) db0 =
    (mkResponse 403 B_message, db0) /\
  handle_read (pending_employee_work (mkActor 2 employee)) db0 = (403, None) /\
  handle_read (employee_analytics (mkActor 2 employee)) db0 = (403, None).
Proof.
  split; [discriminate|].
  apply (admin_only_routes (mkActor 2 employee) db0 10 [10] (Some 2)
           (mkUploadBody (Some []) None None None) None None).
  discriminate.
Defined.

(* ------------------------------------------------------------------ *)
(** ** Read-only routes *)

Lemma filter_ext_elem {X} (P Q : X -> Prop) `{forall x, Decision (P x)}
    `{forall x, Decision (Q x)} (l : list X) :
  (forall x, x ∈ l -> P x <-> Q x) -> filter P l = filter Q l.
Proof.
  induction l as [|x l IH]; intros Hpq; [reflexivity|].
  rewrite !filter_cons.
  rewrite IH by (intros y Hy; apply Hpq; apply list_elem_of_further, Hy).
  assert (Hx : P x <-> Q x) by (apply Hpq; apply list_elem_of_here).
  repeat case_decide; tauto.
Qed.

Lemma filter_all {X} (P : X -> Prop) `{forall x, Decision (P x)} (l : list X) :
  (forall x, x ∈ l -> P x) -> filter P l = l.
Proof.
  induction l as [|x l IH]; intros Hp; [reflexivity|].
  rewrite filter_cons, decide_True by (apply Hp; apply list_elem_of_here).
  rewrite IH; [reflexivity|]. intros y Hy. apply Hp, list_elem_of_further, Hy.
Qed.

Lemma findOrdersWhere_all (s : DB) :
  findOrdersWhere (fun _ => true) s = (Done (map_to_list (orders s)), s).
Proof. unfold findOrdersWhere. rewrite filter_all; [reflexivity|]. intros; reflexivity. Qed.

Lemma count_of_group_count (key : Order -> string) (os : list Order) (k : string) :
  count_of (group_count key os) k = List.length (filter (fun o => key o = k) os).
Proof.
  induction os as [|o os IH]; [reflexivity|].
  assert (E : group_count key (o :: os) =
              <[key o := default 0 (group_count key os !! key o) + 1]> (group_count key os))
    by reflexivity.
  unfold count_of in *. rewrite E, filter_cons.
  destruct (decide (key o = k)) as [<-|Hne].
  - rewrite lookup_insert_eq. simpl. rewrite IH. lia.
  - rewrite lookup_insert_ne by done. exact IH.
Qed.

Lemma length_filter_map {X Y} (f : X -> Y) (P : Y -> Prop) `{forall y, Decision (P y)}
    (l : list X) :
  List.length (filter P (map f l)) = List.length (filter (fun x => P (f x)) l).
Proof.
  induction l as [|x l IH]; [reflexivity|].
  simpl map. rewrite !filter_cons. case_decide; simpl; rewrite IH; reflexivity.
Qed.

(** Orders whose [orderType] is one of the three types split into the three
    type counts. *)
Lemma type_counts_partition (os : list (ObjectId * Order)) :
  Forall (fun q => orderType q.2 ∈ orderTypes) os ->
  List.length (filter (fun q => orderType q.2 = "patches") os) +
  List.length (filter (fun q => orderType q.2 = "digitizing") os) +
  List.length (filter (fun q => orderType q.2 = "vector") os) = List.length os.
Proof.
  induction os as [|o os IH]; intros Hf; [reflexivity|].
  inversion Hf as [|? ? Ho Hr]; subst. specialize (IH Hr).
  rewrite !filter_cons. unfold orderTypes in Ho.
  repeat rewrite elem_of_cons in Ho. rewrite elem_of_nil in Ho.
  destruct Ho as [E|[E|[E|[]]]]; rewrite E; repeat case_decide; try congruence; simpl; lia.
Qed.

Lemma valid_status_enum (o : Order) :
  validate_order o = true -> status o ∈ orderStatuses.
Proof.
  unfold validate_order. intros H. repeat rewrite andb_true_iff in H. destruct_and!.
  unfold in_enum in *. apply (bool_decide_eq_true_1 _). assumption.
Qed.

Lemma valid_type_enum (o : Order) :
  validate_order o = true -> orderType o ∈ orderTypes.
Proof.
  unfold validate_order. intros H. repeat rewrite andb_true_iff in H. destruct_and!.
  unfold in_enum in *. apply (bool_decide_eq_true_1 _). assumption.
Qed.

Lemma length_filter_fmap {X Y} (f : X -> Y) (P : Y -> Prop) `{forall y, Decision (P y)}
    (l : list X) :
  List.length (filter P (f <$> l)) = List.length (filter (fun x => P (f x)) l).
Proof.
  induction l as [|x l IH]; [reflexivity|].
  rewrite fmap_cons, !filter_cons. case_decide; simpl; rewrite IH; reflexivity.
Qed.

Lemma order_stats_run (actor : Actor) (s : DB) :
  actor_role actor = admin \/ actor_role actor = employee ->
  handle_read (order_stats actor) s =
    (200, Some (mkStats (count_by status "Pending" s) (count_by status "In Progress" s)
                 (count_by status "Completed" s) (count_by status "Rejected" s)
                 (count_by orderType "patches" s) (count_by orderType "digitizing" s)
                 (count_by orderType "vector" s) (size (orders s)))).
Proof.
  intros Hr.
  assert (Hg : negb (bool_decide (actor_role actor = admin)) &&
               negb (bool_decide (actor_role actor = employee)) = false).
  { destruct Hr as [E|E]; rewrite E; reflexivity. }
  unfold handle_read, order_stats. rewrite Hg. unfold bind.
  rewrite findOrdersWhere_all. cbn beta iota.
  unfold ret. rewrite !count_of_group_count, !length_filter_fmap.
  rewrite length_fmap, length_map_to_list. reflexivity.
Qed.

(** GET /stats answers 403 to customers; to admins and employees it sends
    the number of orders with each of the four statuses and each of the
    three types it reports, and [total], the number of orders. *)
Lemma order_stats_counts (actor : Actor) (s : DB) :
  (actor_role actor = customer -> handle_read (order_stats actor) s = (403, None)) /\
  (actor_role actor <> customer ->
   handle_read (order_stats actor) s =
    (200, Some (mkStats (count_by status "Pending" s) (count_by status "In Progress" s)
                 (count_by status "Completed" s) (count_by status "Rejected" s)
                 (count_by orderType "patches" s) (count_by orderType "digitizing" s)
                 (count_by orderType "vector" s) (size (orders s))))).
Proof.
  split.
  - intros E. unfold handle_read, order_stats. rewrite E. reflexivity.
  - intros E. apply order_stats_run. destruct (actor_role actor); [congruence|auto|auto].
Qed.

Lemma order_stats_counts_witness :
  handle_read (order_stats (mkActor 1 customer)) db0 = (403, None) /\
  handle_read (order_stats (mkActor 2 employee)) db0 =
    (200, Some (mkStats (count_by status "Pending" db0) (count_by status "In Progress" db0)
                 (count_by status "Completed" db0) (count_by status "Rejected" db0)
                 (count_by orderType "patches" db0) (count_by orderType "digitizing" db0)
                 (count_by orderType "vector" db0) (size (orders db0)))).
Proof.
  destruct (order_stats_counts (mkActor 1 customer) db0) as [H1 _].
  destruct (order_stats_counts (mkActor 2 employee) db0) as [_ H2].
  split; [apply H1; reflexivity|apply H2; discriminate].
Defined.

Lemma list_sum_map_add {Y} (f g : Y -> nat) (E : list Y) :
  list_sum (map (fun e => f e + g e) E) = list_sum (map f E) + list_sum (map g E).
Proof. induction E as [|e E IH]; simpl; [reflexivity|]. rewrite IH. lia. Qed.

Lemma indicator_sum {Y} (k : Y -> ObjectId) (E : list Y) (x : option ObjectId) :
  NoDup (k <$> E) ->
  list_sum (map (fun e => if decide (x = Some (k e)) then 1 else 0) E) =
  match x with Some a => if decide (a ∈ k <$> E) then 1 else 0 | None => 0 end.
Proof.
  induction E as [|e E IH]; intros Hnd.
  - destruct x as [a|]; reflexivity.
  - rewrite fmap_cons in Hnd. apply NoDup_cons in Hnd as [Hn Hnd].
    simpl. rewrite (IH Hnd). destruct x as [a|].
    + change (list_fmap Y ObjectId k E) with (k <$> E).
      destruct (decide (a = k e)) as [->|Hne].
      * rewrite decide_True by reflexivity. rewrite (decide_False _ _ Hn).
        rewrite decide_True by apply list_elem_of_here. reflexivity.
      * rewrite decide_False by congruence.
        destruct (decide (a ∈ k <$> E)) as [Hin|Hin].
        -- rewrite decide_True by (apply list_elem_of_further, Hin). reflexivity.
        -- rewrite decide_False; [reflexivity|]. rewrite elem_of_cons. tauto.
    + rewrite decide_False by discriminate. reflexivity.
Qed.

(** Keys that are [None] or one of the distinct keys of [E] split [l]. *)
Lemma count_partition {X Y} (k : Y -> ObjectId) (E : list Y) (l : list (X * option ObjectId)) :
  NoDup (k <$> E) ->
  (forall q a, q ∈ l -> q.2 = Some a -> a ∈ k <$> E) ->
  list_sum (map (fun e => List.length (filter (fun q => q.2 = Some (k e)) l)) E) +
  List.length (filter (fun q => q.2 = None) l) = List.length l.
Proof.
  intros Hnd. induction l as [|q l IH]; intros Hin.
  - simpl. clear. induction E as [|e E IHE]; simpl; lia.
  - assert (Hm : map (fun e => List.length (filter (fun q0 => q0.2 = Some (k e)) (q :: l))) E =
                 map (fun e => (if decide (q.2 = Some (k e)) then 1 else 0) +
                               List.length (filter (fun q0 => q0.2 = Some (k e)) l)) E).
    { apply map_ext. intros e. rewrite filter_cons. case_decide; simpl; lia. }
    rewrite Hm, list_sum_map_add, indicator_sum by exact Hnd.
    rewrite filter_cons.
    assert (IH' := IH (fun q0 a Hq => Hin q0 a (list_elem_of_further _ _ _ Hq))).
    destruct q as [x [a|]]; simpl.
    + rewrite decide_True by (apply (Hin (x, Some a) a); [apply list_elem_of_here|reflexivity]).
      lia.
    + simpl. lia.
Qed.

Lemma employees_NoDup (s : DB) :
  NoDup (fst <$> filter (fun p : ObjectId * User => role p.2 = employee) (map_to_list (users s))).
Proof.
  apply (sublist_NoDup _ (map_to_list (users s)).*1); [apply NoDup_fst_map_to_list|].
  apply fmap_sublist, sublist_filter.
Qed.

Lemma filter_none {X} (P : X -> Prop) `{forall x, Decision (P x)} (l : list X) :
  (forall x, x ∈ l -> ~ P x) -> filter P l = [].
Proof.
  induction l as [|x l IH]; intros Hp; [reflexivity|].
  rewrite filter_cons, decide_False by (apply Hp, list_elem_of_here).
  apply IH. intros y Hy. apply Hp, list_elem_of_further, Hy.
Qed.

Lemma pending_not_status : "Pending" ∉ orderStatuses.
Proof. apply (bool_decide_unpack _). vm_compute. reflexivity. Qed.

Lemma valid_not_pending (s : DB) (id : ObjectId) (o : Order) :
  map_Forall (fun _ o => validate_order o = true) (orders s) ->
  orders s !! id = Some o -> status o <> "Pending".
Proof.
  intros Hv Ho E. apply pending_not_status. rewrite <- E.
  apply valid_status_enum. exact (Hv id o Ho).
Qed.

Lemma employee_analytics_run (actor : Actor) (s : DB) :
  actor_role actor = admin ->
  let pop := map (fun q => (q.2, match assignedTo q.2 with
                                 | Some a => match users s !! a with
                                             | Some _ => Some a
                                             | None => None
                                             end
                                 | None => None
                                 end)) (map_to_list (orders s)) in
  handle_read (employee_analytics actor) s =
    (200, Some (mkAnalytics
                  (map (fun e => employeeStats pop e.1)
                     (filter (fun p => role p.2 = employee) (map_to_list (users s))))
                  (List.length (filter (fun q => q.2 = None) pop))
                  (List.length (map_to_list (orders s))))).
Proof.
  intros Ha pop. unfold handle_read, employee_analytics. rewrite decide_True by exact Ha.
  unfold bind, findUsersByRole, populateAssigned, ret. rewrite findOrdersWhere_all.
  reflexivity.
Qed.

(** GET /employee-analytics: when every order assigned to an existing
    user is assigned to an employee, the orders assigned to the employees
    and the unassigned orders add up to [totalOrders], the number of
    orders; an order counts as unassigned when it has no assignee or its
    assignee is no longer a user. *)
Lemma analytics_partition (actor : Actor) (s : DB) :
  actor_role actor = admin ->
  (forall id o a u, orders s !! id = Some o -> assignedTo o = Some a ->
     users s !! a = Some u -> role u = employee) ->
  exists an, handle_read (employee_analytics actor) s = (200, Some an) /\
    totalOrders an = size (orders s) /\
    unassignedCount an =
      List.length (filter (fun q => no_assignee (users s) q.2 = true) (map_to_list (orders s))) /\
    list_sum (map ea_totalAssigned (an_analytics an)) + unassignedCount an = totalOrders an.
Proof.
  intros Ha Hemp. rewrite (employee_analytics_run actor s Ha).
  eexists. split; [reflexivity|]. cbn [totalOrders unassignedCount an_analytics].
  split; [apply length_map_to_list|]. split.
  - rewrite length_filter_map. f_equal. apply filter_ext_elem.
    intros [id o] _. unfold no_assignee. simpl.
    destruct (assignedTo o) as [a|]; [destruct (users s !! a)|]; split; congruence.
  - rewrite map_map. simpl.
    transitivity (List.length (map (fun q => (q.2, match assignedTo q.2 with
                                 | Some a => match users s !! a with
                                             | Some _ => Some a
                                             | None => None
                                             end
                                 | None => None
                                 end)) (map_to_list (orders s)))); [|apply length_map].
    apply (count_partition fst); [apply employees_NoDup|].
    intros q a Hq Hqa. apply list_elem_of_In, in_map_iff in Hq as ([id o] & <- & Hin).
    apply list_elem_of_In, elem_of_map_to_list in Hin. simpl in Hqa.
    destruct (assignedTo o) as [a0|] eqn:Eo; [|discriminate].
    destruct (users s !! a0) as [u|] eqn:Eu; [|discriminate].
    injection Hqa as <-. apply list_elem_of_fmap. exists (a0, u). split; [reflexivity|].
    apply list_elem_of_filter. split; [simpl; eapply Hemp; eauto|].
    apply elem_of_map_to_list. exact Eu.
Qed.

(** [db0] with order 12 assigned to user 9, who does not exist. *)
Lemma analytics_partition_witness :
  let s := with_orders (<[12 := set_assignedTo (Some 9) (sampleOrder 5 "VEC-2" "vector" tfVector)]>
                          (orders db0)) db0 in
  (forall id o a u, orders s !! id = Some o -> assignedTo o = Some a ->
     users s !! a = Some u -> role u = employee) /\
  exists an, handle_read (employee_analytics (mkActor 4 admin)) s = (200, Some an) /\
    totalOrders an = size (orders s) /\
    unassignedCount an =
      List.length (filter (fun q => no_assignee (users s) q.2 = true) (map_to_list (orders s))) /\
    list_sum (map ea_totalAssigned (an_analytics an)) + unassignedCount an = totalOrders an.
Proof.
  intros s.
  assert (H : forall id o a u, orders s !! id = Some o -> assignedTo o = Some a ->
                users s !! a = Some u -> role u = employee).
  { intros id o a u Ho Ha Hu.
    assert (Hid : id = 10 \/ id = 11 \/ id = 12).
    { destruct (decide (id = 10)) as [->|N10]; [auto|].
      destruct (decide (id = 11)) as [->|N11]; [auto|].
      destruct (decide (id = 12)) as [->|N12]; [auto|].
      exfalso. revert Ho. unfold s, with_orders. simpl.
      rewrite !lookup_insert_ne by congruence. discriminate. }
    destruct Hid as [ -> | [ -> | -> ] ]; vm_compute in Ho; injection Ho as <-;
      vm_compute in Ha; try discriminate; injection Ha as <-;
      vm_compute in Hu; try discriminate; injection Hu as <-; reflexivity. }
  split; [exact H|].
  apply (analytics_partition (mkActor 4 admin) s); [reflexivity|exact H].
Defined.

(** On orders that pass schema validation the "Pending" counters are
    dead: "Pending" is not a status of the schema, so GET /stats always
    reports [pending = 0] (and its three type counts add up to [total]),
    and GET /employee-analytics reports for every employee a [pending]
    equal to [inProgress]. *)
Lemma pending_counters_valid (actor : Actor) (s : DB) :
  map_Forall (fun _ o => validate_order o = true) (orders s) ->
  (actor_role actor <> customer ->
   exists st, handle_read (order_stats actor) s = (200, Some st) /\ st_pending st = 0 /\
     st_patches st + st_digitizing st + st_vector st = st_total st) /\
  (actor_role actor = admin ->
   exists an, handle_read (employee_analytics actor) s = (200, Some an) /\
     Forall (fun e => ea_pending e = ea_inProgress e) (an_analytics an)).
Proof.
  intros Hv. split.
  - intros Hr. rewrite order_stats_run by (destruct (actor_role actor); tauto).
    eexists. split; [reflexivity|]. simpl. split.
    + unfold count_by. rewrite filter_none; [reflexivity|].
      intros [id o] Hin. apply elem_of_map_to_list in Hin. simpl.
      exact (valid_not_pending s id o Hv Hin).
    + unfold count_by. rewrite <- length_map_to_list. apply type_counts_partition.
      apply Forall_forall. intros [id o] Hin. apply elem_of_map_to_list in Hin.
      apply valid_type_enum. exact (Hv id o Hin).
  - intros Ha. rewrite (employee_analytics_run actor s Ha).
    eexists. split; [reflexivity|]. simpl.
    apply Forall_map, Forall_forall. intros e _. unfold employeeStats. simpl.
    f_equal. apply filter_ext_elem. intros q Hq.
    apply list_elem_of_filter in Hq as [_ Hq].
    apply list_elem_of_In, in_map_iff in Hq as ([id o] & <- & Hin).
    apply list_elem_of_In, elem_of_map_to_list in Hin. simpl.
    pose proof (valid_not_pending s id o Hv Hin). tauto.
Qed.

Lemma pending_counters_valid_witness :
  map_Forall (fun _ o => validate_order o = true) (orders db0) /\
  (exists st, handle_read (order_stats (mkActor 2 employee)) db0 = (200, Some st) /\
     st_pending st = 0 /\ st_patches st + st_digitizing st + st_vector st = st_total st) /\
  (exists an, handle_read (employee_analytics (mkActor 4 admin)) db0 = (200, Some an) /\
     Forall (fun e => ea_pending e = ea_inProgress e) (an_analytics an)).
Proof.
  assert (Hv : map_Forall (fun _ o => validate_order o = true) (orders db0)).
  { apply (bool_decide_unpack _). vm_compute. reflexivity. }
  split; [exact Hv|]. split.
  - apply (pending_counters_valid (mkActor 2 employee) db0 Hv). discriminate.
  - apply (pending_counters_valid (mkActor 4 admin) db0 Hv). reflexivity.
Defined.

Lemma findOrdersWhere_elem (p : ObjectId * Order -> bool) (s : DB) (id : ObjectId) (o : Order) :
  (id, o) ∈ filter (fun q => p q = true) (map_to_list (orders s)) <->
  orders s !! id = Some o /\ p (id, o) = true.
Proof. rewrite list_elem_of_filter, elem_of_map_to_list. tauto. Qed.

Lemma findOrdersWhere_NoDup (p : ObjectId * Order -> bool) (s : DB) :
  NoDup (filter (fun q => p q = true) (map_to_list (orders s))).*1.
Proof.
  apply (sublist_NoDup _ (map_to_list (orders s)).*1); [apply NoDup_fst_map_to_list|].
  apply fmap_sublist, sublist_filter.
Qed.


(** GET / lists every order, once, to an admin, and to anybody else
    exactly the orders whose customer is the caller. *)
Lemma list_orders_visibility (actor : Actor) (s : DB) :
  exists os, handle_read (list_orders actor) s = (200, Some os) /\ NoDup os.*1 /\
    forall id o, (id, o) ∈ os <->
      orders s !! id = Some o /\ (actor_role actor = admin \/ customerId o = actor_id actor).
Proof.
  eexists. split; [reflexivity|]. split; [apply findOrdersWhere_NoDup|].
  intros id o. rewrite findOrdersWhere_elem. simpl.
  rewrite orb_true_iff, !bool_decide_eq_true. reflexivity.
Qed.



(** GET /pending-employee-work lists to an admin each order whose
    employee work awaits review ([hasPendingWork]) once, and no other. *)
Lemma pending_employee_work_list (actor : Actor) (s : DB) :
  actor_role actor = admin ->
  exists os, handle_read (pending_employee_work actor) s = (200, Some os) /\ NoDup os.*1 /\
    forall id o, (id, o) ∈ os <->
      orders s !! id = Some o /\ hasPendingWork (employeePendingWork o) = true.
Proof.
  intros Ha. unfold handle_read, pending_employee_work.
  rewrite bool_decide_eq_true_2 by exact Ha. simpl.
  eexists. split; [reflexivity|]. split; [apply findOrdersWhere_NoDup|].
  intros id o. apply findOrdersWhere_elem.
Qed.

Lemma pending_employee_work_list_witness :
  actor_role (mkActor 4 admin) = admin /\
  exists os, handle_read (pending_employee_work (mkActor 4 admin)) db2 = (200, Some os) /\
    NoDup os.*1 /\
    forall id o, (id, o) ∈ os <->
      orders db2 !! id = Some o /\ hasPendingWork (employeePendingWork o) = true.
Proof.
  split; [reflexivity|]. apply (pending_employee_work_list (mkActor 4 admin) db2). reflexivity.
Defined.

(* ------------------------------------------------------------------ *)
(** ** Employee work review, deletion, revisions and owner updates *)

Lemma validate_set_epw (p : PendingWork) (o : Order) :
  validate_order (set_employeePendingWork p o) = validate_order o.
Proof. reflexivity. Qed.

Lemma validate_set_report (r : string) (o : Order) :
  validate_order (set_report r o) = validate_order o.
Proof. reflexivity. Qed.

Lemma validate_add_samples o imgs :
  validate_order o = true ->
  Forall (fun i => s_type i = "initial" \/ s_type i = "revision") imgs ->
  validate_order (set_sampleImages (sampleImages o ++ imgs)%list o) = true.
Proof.
  intros Hv Hi.
  assert (E : validate_order (set_sampleImages (sampleImages o ++ imgs)%list o) =
              validate_order (set_status (status o) (set_sampleImages (sampleImages o ++ imgs)%list o)))
    by reflexivity.
  rewrite E, validate_upload by assumption.
  apply (bool_decide_eq_true_2 _). apply valid_status_enum, Hv.
Qed.

Lemma pendingToSample_types (r : string) (fs : list PendingFile) :
  Forall (fun i => s_type i = "initial" \/ s_type i = "revision") (map (pendingToSample r) fs).
Proof. apply Forall_map, Forall_forall. intros f _. left. reflexivity. Qed.

Lemma invalid_status_invalid (o : Order) :
  in_enum (status o) orderStatuses = false -> validate_order o = false.
Proof. intros H. unfold validate_order. rewrite H, !andb_false_r. reflexivity. Qed.

(** POST /:id/admin-approve-work on a valid order with pending work whose
    [pendingStatus] is empty or a status of the schema: the response is
    200; the pending files become sample images appended after the old
    ones; the pending work is reset; the status (and report) become the
    pending ones when these are non-empty; the customer is notified that a
    sample was uploaded, and that is the only notification: the check of
    [pending.submittedBy] reads the reset pending work, so the submitting
    employee is never told that the work was approved. *)
Lemma admin_approve_work_effect (actor : Actor) (id : ObjectId) (s : DB) (o : Order) :
  actor_role actor = admin -> orders s !! id = Some o ->
  hasPendingWork (employeePendingWork o) = true -> validate_order o = true ->
  (pendingStatus (employeePendingWork o) = "" \/
   pendingStatus (employeePendingWork o) ∈ orderStatuses) ->
  id ∉ failing_writes s ->
  let p := employeePendingWork o in
  let (r, s') := handle (admin_approve_work actor id) s in
  code r = 200 /\
  exists o', orders s' !! id = Some o' /\
    sampleImages o' = (sampleImages o ++ map (pendingToSample (pendingReport p)) (pendingFiles p))%list /\
    employeePendingWork o' = emptyPendingWork /\
    status o' = (if String.eqb (pendingStatus p) "" then status o else pendingStatus p) /\
    report o' = (if String.eqb (pendingReport p) "" then report o else pendingReport p) /\
    exists ns, notifications s' = (notifications s ++ ns)%list /\
      map (fun n => (n_userId n, n_type n)) ns = [(customerId o, "sample_uploaded")].
Proof.
  intros Ha Ho Hp Hv Hst Hf p. subst p.
  set (pw := employeePendingWork o) in *.
  pose proof (pendingToSample_types (pendingReport pw) (pendingFiles pw)) as Ht.
  unfold handle, admin_approve_work. rewrite decide_True by exact Ha.
  unfold bind, findOrder. simpl. rewrite Ho. fold pw. rewrite Hp.
  unfold saveOrder. rewrite decide_False by exact Hf. simpl.
  destruct (String.eqb (pendingStatus pw) "") eqn:Es;
  destruct (String.eqb (pendingReport pw) "") eqn:Er; simpl;
  rewrite ?validate_set_epw, ?validate_set_report;
  first [rewrite validate_upload by assumption | rewrite validate_add_samples by assumption];
  try (destruct Hst as [Hst|Hst]; [rewrite Hst in Es; discriminate|];
       unfold in_enum; rewrite (bool_decide_eq_true_2 _ Hst));
  (split; [reflexivity|]; eexists; split; [apply lookup_insert_eq|]; simpl;
   repeat split; eexists; split; [rewrite <- ?app_assoc; reflexivity|reflexivity]).
Qed.

Lemma admin_approve_work_effect_witness :
  (actor_role (mkActor 4 admin) = admin /\ orders db2 !! 10 = Some order10_pending /\
   hasPendingWork (employeePendingWork order10_pending) = true /\
   validate_order order10_pending = true /\
   (pendingStatus (employeePendingWork order10_pending) = "" \/
    pendingStatus (employeePendingWork order10_pending) ∈ orderStatuses) /\
   10 ∉ failing_writes db2) /\
  let p := employeePendingWork order10_pending in
  let (r, s') := handle (admin_approve_work (mkActor 4 admin) 10) db2 in
  code r = 200 /\
  exists o', orders s' !! 10 = Some o' /\
    sampleImages o' =
      (sampleImages order10_pending ++ map (pendingToSample (pendingReport p)) (pendingFiles p))%list /\
    employeePendingWork o' = emptyPendingWork /\
    status o' = (if String.eqb (pendingStatus p) "" then status order10_pending else pendingStatus p) /\
    report o' = (if String.eqb (pendingReport p) "" then report order10_pending else pendingReport p) /\
    exists ns, notifications s' = (notifications db2 ++ ns)%list /\
      map (fun n => (n_userId n, n_type n)) ns = [(customerId order10_pending, "sample_uploaded")].
Proof.
  assert (Hs : pendingStatus (employeePendingWork order10_pending) ∈ orderStatuses).
  { apply (bool_decide_unpack _). vm_compute. reflexivity. }
  split.
  - split; [reflexivity|]. split; [reflexivity|]. split; [reflexivity|].
    split; [vm_compute; reflexivity|]. split; [right; exact Hs|].
    apply (bool_decide_unpack _). vm_compute. reflexivity.
  - apply (admin_approve_work_effect (mkActor 4 admin) 10 db2 order10_pending).
    + reflexivity.
    + reflexivity.
    + reflexivity.
    + vm_compute. reflexivity.
    + right. exact Hs.
    + apply (bool_decide_unpack _). vm_compute. reflexivity.
Defined.

Lemma employee_submit_run (actor : Actor) (id : ObjectId) (b : SubmitBody) (s : DB) (o : Order) :
  actor_role actor = employee -> orders s !! id = Some o ->
  assignedTo o = Some (actor_id actor) ->
  validate_order o = true -> id ∉ failing_writes s ->
  let pw := mkPendingWork true (js_or (sb_pendingStatus b) "Waiting for Approval")
              (match sb_pendingFiles b with Some fs => fs | None => [] end)
              (js_or (sb_pendingReport b) (js_or (sb_comments b) ""))
              (Some (actor_id actor)) "" false in
  exists s1, handle (employee_submit actor id b) s =
               (mkResponse 200 (B_order (set_employeePendingWork pw o)), s1) /\
    orders s1 = <[id := set_employeePendingWork pw o]> (orders s) /\
    failing_writes s1 = failing_writes s.
Proof.
  intros Hr Ho Ha Hv Hf pw.
  unfold handle, employee_submit. rewrite decide_True by exact Hr.
  unfold bind, findOrder. simpl. rewrite Ho. rewrite decide_True by exact Ha.
  unfold saveOrder. rewrite decide_False by exact Hf.
  rewrite validate_set_epw, Hv.
  unfold findUsersByRole. simpl. rewrite notify_each_effect. simpl.
  eexists. split; [reflexivity|]. split; reflexivity.
Qed.

(** Composition of POST /:id/employee-submit and POST
    /:id/admin-approve-work: the employee's [pendingStatus] is not checked
    against the status enum, so a non-empty one outside it is stored
    (200); the admin's approval then fails its save and answers 500
    without changing anything, so the work stays pending with that status
    and every later approval fails the same way. *)
Lemma submit_invalid_status_blocks_approval (emp adm : Actor) (id : ObjectId)
    (b : SubmitBody) (s : DB) (o : Order) (st : string) :
  actor_role emp = employee -> actor_role adm = admin ->
  orders s !! id = Some o -> assignedTo o = Some (actor_id emp) ->
  validate_order o = true -> id ∉ failing_writes s ->
  sb_pendingStatus b = Some st -> st <> "" -> st ∉ orderStatuses ->
  let (r1, s1) := handle (employee_submit emp id b) s in
  code r1 = 200 /\
  handle (admin_approve_work adm id) s1 = (mkResponse 500 B_message, s1) /\
  exists o1, orders s1 !! id = Some o1 /\ hasPendingWork (employeePendingWork o1) = true /\
    pendingStatus (employeePendingWork o1) = st.
Proof.
  intros He Ha Ho Has Hv Hf Hb Hne Hnot.
  destruct (employee_submit_run emp id b s o He Ho Has Hv Hf) as (s1 & Hrun & Hord & Hfw).
  rewrite Hrun.
  assert (Hst : String.eqb st "" = false) by (apply String.eqb_neq; exact Hne).
  split; [reflexivity|]. split.
  - unfold handle, admin_approve_work. rewrite decide_True by exact Ha.
    unfold bind, findOrder. simpl. rewrite Hord, lookup_insert_eq. simpl.
    rewrite Hb. simpl. rewrite Hst. simpl.
    unfold saveOrder. rewrite Hfw, decide_False by exact Hf.
    destruct (String.eqb (js_or (sb_pendingReport b) (js_or (sb_comments b) "")) "");
      simpl; rewrite ?validate_set_epw, ?validate_set_report;
      rewrite invalid_status_invalid
        by (unfold set_status, set_sampleImages, set_employeePendingWork, js_or, truthy in *;
            simpl; rewrite ?Hb; simpl; rewrite ?Hst;
            unfold in_enum; apply bool_decide_eq_false_2; exact Hnot);
      reflexivity.
  - rewrite Hord. eexists. split; [apply lookup_insert_eq|]. simpl.
    rewrite Hb. simpl. rewrite Hst. split; reflexivity.
Qed.

Lemma submit_invalid_status_blocks_approval_witness :
  let b := mkSubmitBody (Some "Done") None (Some "finished") None in
  (actor_role (mkActor 2 employee) = employee /\ actor_role (mkActor 4 admin) = admin /\
   orders db0 !! 10 = Some order10 /\ assignedTo order10 = Some (actor_id (mkActor 2 employee)) /\
   validate_order order10 = true /\ (10 ∉ failing_writes db0) /\
   sb_pendingStatus b = Some "Done" /\ "Done" <> "" /\ "Done" ∉ orderStatuses) /\
  let (r1, s1) := handle (employee_submit (mkActor 2 employee) 10 b) db0 in
  code r1 = 200 /\
  handle (admin_approve_work (mkActor 4 admin) 10) s1 = (mkResponse 500 B_message, s1) /\
  exists o1, orders s1 !! 10 = Some o1 /\ hasPendingWork (employeePendingWork o1) = true /\
    pendingStatus (employeePendingWork o1) = "Done".
Proof.
  assert (Hn : "Done" ∉ orderStatuses).
  { apply (bool_decide_unpack _). vm_compute. reflexivity. }
  assert (Hf : 10 ∉ failing_writes db0).
  { apply (bool_decide_unpack _). vm_compute. reflexivity. }
  split.
  - do 5 (split; [first [reflexivity | vm_compute; reflexivity]|]).
    split; [exact Hf|]. split; [reflexivity|]. split; [discriminate|exact Hn].
  - apply (submit_invalid_status_blocks_approval (mkActor 2 employee) (mkActor 4 admin) 10 _ db0
             order10 "Done").
    + reflexivity.
    + reflexivity.
    + reflexivity.
    + reflexivity.
    + vm_compute. reflexivity.
    + exact Hf.
    + reflexivity.
    + discriminate.
    + exact Hn.
Defined.



(** POST /:id/create-revision by the owner when no user has the admin
    role: [admins[0]._id] throws after the writes, so the customer gets a
    500 although the parent is already marked "Superseded" and the new
    revision order is stored; no notification is created. *)
Lemma create_revision_no_admin (actor : Actor) (id : ObjectId) (comments : option string)
    (stamp : string) (s : DB) (p : Order) (cu : User) :
  orders s !! id = Some p ->
  users s !! customerId p = Some cu ->
  customerId p = actor_id actor ->
  validate_order p = true -> id ∉ failing_writes s ->
  (forall uid u, users s !! uid = Some u -> role u <> admin) ->
  let (r, s') := handle (create_revision actor id comments stamp) s in
  r = mkResponse 500 B_message /\ notifications s' = notifications s /\
  orders s' !! id = Some (set_status "Superseded" p) /\
  exists rid rv, orders s !! rid = None /\ orders s' !! rid = Some rv /\
    parentOrderId (revision rv) = Some id.
Proof.
  intros Ho Hu Hc Hv Hf Hna.
  assert (HvS : validate_order (set_status "Superseded" p) = true).
  { rewrite validate_set_status by done. reflexivity. }
  unfold handle, create_revision, bind, findOrder, findUser. simpl. rewrite Ho. simpl. rewrite Hu.
  rewrite decide_True by done.
  unfold findRevisionsOf, createOrder. simpl.
  rewrite validate_revision by done.
  set (rid := fresh (dom (orders s))).
  assert (Hrid : orders s !! rid = None).
  { apply not_elem_of_dom. apply is_fresh. }
  assert (Hne : rid <> id).
  { intros ->. congruence. }
  unfold saveOrder. simpl. rewrite decide_False by done. rewrite HvS.
  unfold findUsersByRole. simpl.
  rewrite (filter_none _ (map_to_list (users s))).
  2: { intros [uid u] Hin. apply elem_of_map_to_list in Hin. exact (Hna uid u Hin). }
  simpl. split; [reflexivity|]. split; [reflexivity|]. split; [apply lookup_insert_eq|].
  exists rid. eexists. split; [exact Hrid|].
  split; [rewrite lookup_insert_ne by congruence; apply lookup_insert_eq|reflexivity].
Qed.

Lemma create_revision_no_admin_witness :
  let s := mkDB (orders db0) (delete 4 (users db0)) [] ∅ [] in
  (orders s !! 10 = Some order10 /\ users s !! customerId order10 = Some (mkUser customer []) /\
   customerId order10 = actor_id (mkActor 1 customer) /\ validate_order order10 = true /\
   (10 ∉ failing_writes s) /\
   (forall uid u, users s !! uid = Some u -> role u <> admin)) /\
  let (r, s') := handle (create_revision (mkActor 1 customer) 10 None "001") s in
  r = mkResponse 500 B_message /\ notifications s' = notifications s /\
  orders s' !! 10 = Some (set_status "Superseded" order10) /\
  exists rid rv, orders s !! rid = None /\ orders s' !! rid = Some rv /\
    parentOrderId (revision rv) = Some 10.
Proof.
  intros s.
  assert (Hf : 10 ∉ failing_writes s) by (apply not_elem_of_nil).
  assert (Hna : forall uid u, users s !! uid = Some u -> role u <> admin).
  { assert (Hall : map_Forall (fun _ u => role u <> admin) (users s)).
    { apply (bool_decide_unpack _). vm_compute. reflexivity. }
    intros uid u Hu. exact (map_Forall_lookup_1 _ _ _ _ Hall Hu). }
  split.
  - split; [reflexivity|]. split; [reflexivity|]. split; [reflexivity|].
    split; [vm_compute; reflexivity|]. split; [exact Hf|exact Hna].
  - apply (create_revision_no_admin (mkActor 1 customer) 10 None "001" s order10
             (mkUser customer [])).
    + reflexivity.
    + reflexivity.
    + reflexivity.
    + vm_compute. reflexivity.
    + exact Hf.
    + exact Hna.
Defined.

(** PUT /:id by a customer: only the owner is served, and only [notes]
    can change.  The owner gets 200 with the order stored with the new
    notes when [req.body.notes] is non-empty, unchanged otherwise, whatever
    status, report or tracking number the body carries, and no
    notification is created; any other customer gets 403 and nothing
    changes. *)
Lemma put_order_customer (actor : Actor) (id : ObjectId) (b : PutBody) (s : DB) (o : Order) :
  actor_role actor = customer ->
  orders s !! id = Some o -> validate_order o = true -> id ∉ failing_writes s ->
  let o' := match b_notes b with
            | Some n => if String.eqb n "" then o else set_notes n o
            | None => o
            end in
  if decide (customerId o = actor_id actor) then
    handle (put_order actor id b) s =
      (mkResponse 200 (B_order o'), with_orders (<[id:=o']> (orders s)) s)
  else handle (put_order actor id b) s = (mkResponse 403 B_message, s).
Proof.
  intros Hr Ho Hv Hf o'.
  unfold handle, put_order, bind, findOrder. simpl. rewrite Ho, Hr. simpl.
  case_decide as Hc; [|reflexivity].
  unfold saveOrder. rewrite decide_False by exact Hf.
  subst o'. destruct (b_notes b) as [n|]; simpl.
  - destruct (String.eqb n "") eqn:En; simpl; rewrite ?validate_set_notes, Hv; reflexivity.
  - rewrite Hv. reflexivity.
Qed.

Lemma put_order_customer_witness :
  let b := mkPutBody (Some "Completed") None None (Some "TRACK") (Some "blue thread") None in
  (actor_role (mkActor 1 customer) = customer /\ orders db0 !! 10 = Some order10 /\
   validate_order order10 = true /\ (10 ∉ failing_writes db0)) /\
  (if decide (customerId order10 = actor_id (mkActor 1 customer)) then
     handle (put_order (mkActor 1 customer) 10 b) db0 =
       (mkResponse 200 (B_order (set_notes "blue thread" order10)),
        with_orders (<[10:=set_notes "blue thread" order10]> (orders db0)) db0)
   else handle (put_order (mkActor 1 customer) 10 b) db0 = (mkResponse 403 B_message, db0)).
Proof.
  assert (Hf : 10 ∉ failing_writes db0).
  { apply (bool_decide_unpack _). vm_compute. reflexivity. }
  split.
  - split; [reflexivity|]. split; [reflexivity|]. split; [vm_compute; reflexivity|exact Hf].
  - apply (put_order_customer (mkActor 1 customer) 10
             (mkPutBody (Some "Completed") None None (Some "TRACK") (Some "blue thread") None)
             db0 order10).
    + reflexivity.
    + reflexivity.
    + vm_compute. reflexivity.
    + exact Hf.
Defined.

(** POST /pay/:invoiceId (routes/invoiceRoutes.js) when the provider
    reports the transaction COMPLETED but the linked order cannot be saved:
    the customer gets 500, yet the invoice has already been stored as paid,
    and the order keeps its previous [invoiceStatus]. *)
Lemma pay_invoice_partial_write (provider : Provider) (actor : Actor) (iid oid : ObjectId)
    (tx : string) (s : DB) (inv : Invoice) (po : ProviderOrder) (o : Order) :
  actor_role actor = customer ->
  invoices s !! iid = Some inv -> provider tx = Some po -> po_status po = "COMPLETED" ->
  inv_orderId inv = Some oid -> orders s !! oid = Some o ->
  oid ∈ failing_writes s \/ validate_order (set_invoiceStatus "paid" o) = false ->
  handle (pay_invoice provider actor iid tx) s =
    (mkResponse 500 B_message,
     with_invoices (<[iid:=markPaid inv (mkPaymentDetails (po_id po) (po_payer_id po)
                                          (po_payer_email po))]> (invoices s)) s).
Proof.
  intros Hr Hi Hp Hs Hl Ho Hfail.
  unfold handle, pay_invoice. rewrite decide_True by exact Hr.
  unfold bind, findInvoice. simpl. rewrite Hi, Hp, Hs. simpl.
  unfold markLinkedOrderPaid. simpl. rewrite Hl. unfold bind, findOrder. simpl. rewrite Ho.
  unfold saveOrder. simpl. destruct Hfail as [Hf|Hv].
  - rewrite decide_True by exact Hf. reflexivity.
  - case_decide; [reflexivity|]. rewrite Hv. reflexivity.
Qed.

Lemma pay_invoice_partial_write_witness :
  let prov : Provider := fun t => if String.eqb t "TX-2"
    then Some (mkProviderOrder "TX-2" "COMPLETED" "P1" "p@example.com") else None in
  let s := mkDB (orders db1) (users db1) (notifications db1) (invoices db1) [11] in
  (actor_role (mkActor 1 customer) = customer /\
   invoices s !! 1 = Some (mkInvoice 1 (Some 11) [] "unpaid" None) /\
   prov "TX-2" = Some (mkProviderOrder "TX-2" "COMPLETED" "P1" "p@example.com") /\
   po_status (mkProviderOrder "TX-2" "COMPLETED" "P1" "p@example.com") = "COMPLETED" /\
   inv_orderId (mkInvoice 1 (Some 11) [] "unpaid" None) = Some 11 /\
   orders s !! 11 <> None /\ 11 ∈ failing_writes s) /\
  exists o, orders s !! 11 = Some o /\
  handle (pay_invoice prov (mkActor 1 customer) 1 "TX-2") s =
    (mkResponse 500 B_message,
     with_invoices (<[1:=markPaid (mkInvoice 1 (Some 11) [] "unpaid" None)
                         (mkPaymentDetails "TX-2" "P1" "p@example.com")]> (invoices s)) s).
Proof.
  intros prov s.
  assert (Hf : 11 ∈ failing_writes s) by (apply list_elem_of_here).
  split.
  - do 5 (split; [reflexivity|]). split; [discriminate|exact Hf].
  - destruct (orders s !! 11) as [o|] eqn:Ho; [|discriminate].
    exists o. split; [reflexivity|].
    apply (pay_invoice_partial_write prov (mkActor 1 customer) 1 11 "TX-2" s
             (mkInvoice 1 (Some 11) [] "unpaid" None)
             (mkProviderOrder "TX-2" "COMPLETED" "P1" "p@example.com") o).
    + reflexivity.
    + reflexivity.
    + reflexivity.
    + reflexivity.
    + reflexivity.
    + exact Ho.
    + left. exact Hf.
Defined.

(** POST /public/pay/:invoiceId needs no authentication and checks no
    ownership: the customer route POST /pay/:invoiceId behaves exactly like
    it for every customer, whoever owns the invoice.  When the provider
    reports the transaction COMPLETED the invoice is stored as paid with
    the provider's details, whatever its previous state and whether or not
    the same transaction already paid another invoice. *)
Lemma public_pay_invoice_effect (provider : Provider) (iid : ObjectId) (tx : string)
    (s : DB) (inv : Invoice) (po : ProviderOrder) :
  invoices s !! iid = Some inv -> provider tx = Some po -> po_status po = "COMPLETED" ->
  invoices (snd (handle (public_pay_invoice provider iid tx) s)) =
    <[iid:=markPaid inv (mkPaymentDetails (po_id po) (po_payer_id po) (po_payer_email po))]>
      (invoices s) /\
  (forall actor, actor_role actor = customer ->
     handle (pay_invoice provider actor iid tx) s = handle (public_pay_invoice provider iid tx) s).
Proof.
  intros Hi Hp Hs. split.
  - unfold handle, public_pay_invoice, bind, findInvoice. simpl. rewrite Hi, Hp, Hs. simpl.
    pose proof (markLinkedOrderPaid_invoices
                  (markPaid inv (mkPaymentDetails (po_id po) (po_payer_id po) (po_payer_email po)))
                  (with_invoices (<[iid:=markPaid inv (mkPaymentDetails (po_id po) (po_payer_id po)
                                                       (po_payer_email po))]> (invoices s)) s))
      as Hm.
    destruct (markLinkedOrderPaid _ _) as [[[]|] s'] eqn:E; simpl in *; exact Hm.
  - intros actor Hr. unfold pay_invoice, public_pay_invoice. rewrite decide_True by exact Hr.
    reflexivity.
Qed.

Lemma public_pay_invoice_effect_witness :
  let prov : Provider := fun t => if String.eqb t "TX-9"
    then Some (mkProviderOrder "TX-9" "COMPLETED" "P1" "p@example.com") else None in
  let paid2 := markPaid (mkInvoice 5 None [] "unpaid" None)
                 (mkPaymentDetails "TX-9" "P1" "p@example.com") in
  let s := with_invoices (<[2:=paid2]> (invoices db1)) db1 in
  (invoices s !! 1 = Some (mkInvoice 1 (Some 11) [] "unpaid" None) /\
   prov "TX-9" = Some (mkProviderOrder "TX-9" "COMPLETED" "P1" "p@example.com") /\
   po_status (mkProviderOrder "TX-9" "COMPLETED" "P1" "p@example.com") = "COMPLETED" /\
   invoices s !! 2 = Some paid2) /\
  invoices (snd (handle (public_pay_invoice prov 1 "TX-9") s)) =
    <[1:=markPaid (mkInvoice 1 (Some 11) [] "unpaid" None)
           (mkPaymentDetails "TX-9" "P1" "p@example.com")]> (invoices s) /\
  (forall actor, actor_role actor = customer ->
     handle (pay_invoice prov actor 1 "TX-9") s = handle (public_pay_invoice prov 1 "TX-9") s).
Proof.
  intros prov paid2 s. split.
  - split; [reflexivity|]. split; [reflexivity|]. split; reflexivity.
  - apply (public_pay_invoice_effect prov 1 "TX-9" s (mkInvoice 1 (Some 11) [] "unpaid" None)
             (mkProviderOrder "TX-9" "COMPLETED" "P1" "p@example.com")).
    + reflexivity.
    + reflexivity.
    + reflexivity.
Defined.

Lemma concat_pages {A} (L : nat) (xs : list A) (k : nat) :
  concat (map (fun p => take L (drop ((p - 1) * L) xs)) (seq 1 k)) = take (k * L) xs.
Proof.
  induction k as [|k IH].
  - simpl. rewrite take_0. reflexivity.
  - rewrite seq_S, map_app, concat_app, IH. simpl.
    rewrite Nat.sub_0_r, app_nil_r, take_take_drop. f_equal. lia.
Qed.

Lemma ceil_div_bound (n lim : Z) :
  (0 <= n)%Z -> (1 <= lim)%Z ->
  (0 <= ceil_div n lim)%Z /\ (n <= ceil_div n lim * lim)%Z /\
  (ceil_div n lim = 0%Z -> n = 0%Z).
Proof.
  intros Hn Hl. unfold ceil_div.
  pose proof (Z.div_mod (n + lim - 1) lim ltac:(lia)) as Hd.
  pose proof (Z.mod_pos_bound (n + lim - 1) lim ltac:(lia)) as Hm.
  assert (0 <= (n + lim - 1) / lim)%Z by (apply Z.div_pos; lia).
  split; [assumption|]. split; [nia|]. intros H0. rewrite H0 in Hd. lia.
Qed.

(** Pagination of GET / of the users router, for integer [page] and
    [limit]: the limit sent back is clamped to 1..100 and the number of
    pages is at least 1; a page holds at most [limit] users and a page past
    the last one is empty; and pages 1 to [pages], put end to end, give
    back the whole query result in order, each user once. *)
Lemma users_page_partition {A} (page limit : Z) (xs : list A) :
  let '(_, _, pages, lim) := users_page 1 limit xs in
  (1 <= lim <= 100)%Z /\ (1 <= pages)%Z /\
  List.length (users_page page limit xs).1.1.1 <= Z.to_nat lim /\
  ((pages < page)%Z -> (users_page page limit xs).1.1.1 = []) /\
  concat (map (fun p => (users_page (Z.of_nat p) limit xs).1.1.1)
              (seq 1 (Z.to_nat pages))) = xs.
Proof.
  unfold users_page. simpl.
  set (lim := Z.max 1 (Z.min 100 limit)).
  set (n := Z.of_nat (List.length xs)).
  assert (Hl : (1 <= lim <= 100)%Z) by (subst lim; lia).
  destruct (ceil_div_bound n lim ltac:(lia) ltac:(lia)) as (Hc0 & Hc & Hc1).
  set (c := ceil_div n lim) in *.
  split; [exact Hl|]. split; [destruct (Z.eqb_spec c 0); lia|].
  split; [rewrite length_take; lia|]. split.
  - intros Hp. rewrite drop_ge; [apply take_nil|].
    destruct (Z.eqb_spec c 0) as [E|E].
    + assert (Hn : n = 0%Z) by (apply Hc1; exact E).
      subst n. lia.
    + subst n. nia.
  - rewrite (map_ext_in _ (fun p => take (Z.to_nat lim) (drop ((p - 1) * Z.to_nat lim) xs))).
    2: { intros p Hp. apply in_seq in Hp.
         replace (Z.to_nat ((Z.max 1 (Z.of_nat p) - 1) * lim)) with ((p - 1) * Z.to_nat lim)
           by nia.
         reflexivity. }
    rewrite concat_pages. apply take_ge.
    destruct (Z.eqb_spec c 0) as [E|E].
    + assert (Hn : n = 0%Z) by (apply Hc1; exact E). subst n. lia.
    + subst n. nia.
Qed.
